(** * Order use cases of bch-dex: a shallow embedding and its properties

    Source: [src/use-cases/order/index.js], class [OrderUseCases] with the
    methods [createOrder], [listOrders], [takeOrder], [ensureFunds] and
    [findOrderByHash].

    The methods are asynchronous and talk to collaborators handed in through
    [this.adapters]: the blockchain client ([bchjs]), the wallet, the P2WDB
    client and the local database model ([localdb.Order]).  Each method is
    embedded as a computation in a state-and-exception monad [M] over a
    [World] made of
    - the JavaScript heap holding the caller's payload objects (so that the
      assignment [orderObj.data.orderStatus = 'posted'] is seen through every
      alias of the payload),
    - the Order Store,
    - the log of collaborator calls made so far, in call order.

    Every [await] is a sequencing point of [M]; a rejected promise is a
    [Throw].  Console output is not part of the model.

    Orders read from the store are records with typed fields, as the schema
    of the document model and section 3 of the specification have them; the
    webhook payload is an untyped object on the heap.

    Numbers: order quantities, rates and balances are integers (satoshis and
    token counts), kept in [Z] and read as the doubles they denote.
    Products and sums are rounded to 53 bits as IEEE 754 does, and
    [parseInt] goes through the string JavaScript prints for its argument
    (exponent form from 10^21 on); the statements about amounts say in which
    range the arithmetic is exact.

    Two collaborators belong to the repository but not to the sources at
    hand: the entity validator ([entities/order.js]) and the document model
    of the store ([adapters.localdb.Order]).  Both are modelled from the
    specification, and say so where they are defined.  The other
    collaborators (oracle, wallet, P2WDB client) are parameters. *)

From Stdlib Require Import ZArith String Ascii List Bool Lia.
From Stdlib Require Import Decimal Hexadecimal DecimalString DecimalPos.
From stdpp Require Import base option list gmap strings.

Local Open Scope string_scope.
Local Open Scope Z_scope.

(** ** JavaScript values *)

Abbreviation loc := positive.

(** The values a webhook payload is made of.  Objects live on the heap and
    are referred to by location. *)
Inductive jsval :=
| VUndef
| VNull
| VBool (b : bool)
| VNum (z : Z)
| VStr (s : string)
| VRef (l : loc).

#[global] Instance jsval_eq_dec : EqDecision jsval.
Proof. solve_decision. Defined.

Abbreviation obj := (gmap string jsval).

(** [ToBoolean]. *)
Definition truthy (v : jsval) : bool :=
  match v with
  | VUndef | VNull => false
  | VBool b => b
  | VNum z => negb (Z.eqb z 0)
  | VStr s => negb (String.eqb s "")
  | VRef _ => true
  end.

(** [v === null]. *)
Definition is_null (v : jsval) : bool :=
  match v with VNull => true | _ => false end.

(** [typeof v]. *)
Definition typeof (v : jsval) : string :=
  match v with
  | VUndef => "undefined"
  | VNull => "object"
  | VBool _ => "boolean"
  | VNum _ => "number"
  | VStr _ => "string"
  | VRef _ => "object"
  end.

(** [String.prototype.includes]: [includes s t] is [s.includes(t)]. *)
Fixpoint includes (s t : string) : bool :=
  String.prefix t s ||
  match s with
  | EmptyString => false
  | String _ s' => includes s' t
  end.

(** Exceptions: [new Error(message)], and the [TypeError] the engine raises
    on a property access through [undefined] or [null]. *)
Inductive exn :=
| Error (message : string)
| TypeError (message : string).

#[global] Instance exn_eq_dec : EqDecision exn.
Proof. solve_decision. Defined.

Definition message (e : exn) : string :=
  match e with Error m | TypeError m => m end.

(** Outcome of a call: a value, or a thrown exception. *)
Inductive Res (A : Type) :=
| Ok (a : A)
| Throw (e : exn).
Arguments Ok {A} a.
Arguments Throw {A} e.

(** ** Orders *)

(** An order as the entity validator produces it and the store keeps it.
    [orderStatus] may be absent from a stored record ([None]). *)
Record Order := mkOrder {
  p2wdbHash : string;
  utxoTxid : string;
  utxoVout : Z;
  buyOrSell : string;
  numTokens : Z;
  rateInSats : Z;
  orderStatus : option string
}.

#[global] Instance Order_eq_dec : EqDecision Order.
Proof. solve_decision. Defined.

(** A stored document: the order and the store's own metadata.  This is also
    what [order.toObject()] hands back. *)
Record Doc := mkDoc {
  doc_id : string;
  doc_order : Order
}.

#[global] Instance Doc_eq_dec : EqDecision Doc.
Proof. solve_decision. Defined.

(** ** Collaborator calls *)

Inductive Event :=
| EGetTxOut (txid vout : jsval)
| ECheckForSufficientFunds (wif : jsval)
| EGetBalance
| EGeneratePartialTx (orderInfo : Doc)
| EFindOne (hash : string)
| EFind
| ESave (entity : Order).

#[global] Instance Event_eq_dec : EqDecision Event.
Proof. solve_decision. Defined.

(** The oracle and the wallet are network reads. *)
Definition is_oracle_or_wallet (e : Event) : bool :=
  match e with
  | EGetTxOut _ _ | ECheckForSufficientFunds _ | EGetBalance
  | EGeneratePartialTx _ => true
  | _ => false
  end.

(** The only call that writes to the Order Store. *)
Definition is_write (e : Event) : bool :=
  match e with ESave _ => true | _ => false end.

(** [this.adapters].  The answer of a collaborator may depend on everything
    that happened before the call (the log): liveness and balance change
    between calls.  A collaborator may also reject. *)
Record Adapters := mkAdapters {
  (* bchjs.Blockchain.getTxOut(txid, vout) *)
  getTxOut : list Event -> jsval -> jsval -> Res jsval;
  (* wallet.bchWallet.walletInfo.privateKey *)
  privateKey : jsval;
  (* p2wdb.checkForSufficientFunds(wif) *)
  checkForSufficientFunds : list Event -> jsval -> Res jsval;
  (* wallet.bchWallet.getBalance() *)
  getBalance : list Event -> Res Z;
  (* wallet.bchWallet.utxos.utxoStore *)
  utxoStore : jsval;
  (* wallet.generatePartialTx(orderInfo) *)
  generatePartialTx : list Event -> Doc -> Res jsval;
  (* localdb: a storage fault met by save(), if any *)
  storage_fault : list Event -> Order -> option exn;
  (* localdb: the identifier the store gives a new document *)
  object_id : list Event -> string
}.

(** ** The world and the monad *)

Record World := mkWorld {
  heap : gmap loc obj;
  orders : gmap string Doc;
  log : list Event
}.

Definition M (A : Type) : Type := World -> Res A * World.

Definition ret {A} (a : A) : M A := fun w => (Ok a, w).

Definition throw {A} (e : exn) : M A := fun w => (Throw e, w).

Definition bind {A B} (m : M A) (f : A -> M B) : M B :=
  fun w =>
    match m w with
    | (Ok a, w') => f a w'
    | (Throw e, w') => (Throw e, w')
    end.

(** [try { m } catch (err) { h err }]. *)
Definition try_catch {A} (m : M A) (h : exn -> M A) : M A :=
  fun w =>
    match m w with
    | (Ok a, w') => (Ok a, w')
    | (Throw e, w') => h e w'
    end.

Declare Scope js_scope.
Delimit Scope js_scope with js.
Notation "'let*' x ':=' m 'in' k" := (bind m (fun x => k))
  (at level 10, x name, m at level 100, k at level 200) : js_scope.
Notation "m ';;' k" := (bind m (fun _ => k))
  (at level 100, k at level 200, right associativity) : js_scope.
Local Open Scope js_scope.

Definition lift {A} (r : Res A) : M A := fun w => (r, w).

Definition get_heap : M (gmap loc obj) := fun w => (Ok (heap w), w).

(** ** Property access on heap objects (class bodies are strict code) *)

Definition read_prop (h : gmap loc obj) (v : jsval) (k : string) : Res jsval :=
  match v with
  | VUndef | VNull => Throw (TypeError "Cannot read properties of undefined")
  | VRef l =>
      match h !! l with
      | Some o => Ok (default VUndef (o !! k))
      | None => Ok VUndef
      end
  | _ => Ok VUndef
  end.

(** [v.k] *)
Definition get (v : jsval) (k : string) : M jsval :=
  fun w => (read_prop (heap w) v k, w).

(** [v.k = x] *)
Definition set (v : jsval) (k : string) (x : jsval) : M unit :=
  fun w =>
    match v with
    | VRef l =>
        (Ok tt,
         mkWorld (<[l := <[k := x]> (default ∅ (heap w !! l))]> (heap w))
                 (orders w) (log w))
    | VUndef | VNull =>
        (Throw (TypeError "Cannot set properties of undefined"), w)
    | _ => (Throw (TypeError "Cannot create property"), w)
    end.

(** ** Numbers, [Number.prototype.toString] and [parseInt] *)

(** A Number of integer value: [NaN], an infinity, or a finite double that is
    an integer.  The orders of this program carry integers (token counts,
    satoshis), so fractions do not occur; the zero of the model stands for
    both zeros of IEEE 754, which no comparison tells apart. *)
Inductive number :=
| NaN
| Inf (negative : bool)
| Num (z : Z).

#[global] Instance number_eq_dec : EqDecision number.
Proof. solve_decision. Defined.

(** [Number.MAX_SAFE_INTEGER] *)
Definition MAX_SAFE_INTEGER : Z := 2 ^ 53 - 1.

(** Rounding of an integer to a significand of 53 bits, to nearest, ties to
    even (the exponent is not bounded here). *)
Definition round53 (z : Z) : Z :=
  let a := Z.abs z in
  let e := Z.log2 a - 52 in
  if e <=? 0 then z
  else
    let q := Z.shiftr a e in
    let r := Z.land a (Z.ones e) in
    let half := 2 ^ (e - 1) in
    let q' := if (half <? r) || ((r =? half) && Z.odd q) then q + 1 else q in
    Z.sgn z * (q' * 2 ^ e).

(** The Number value of an integer: the nearest double, an infinity from
    2^1024 on.  A field of an [Order] and a balance are read through
    [to_number]. *)
Definition to_number (z : Z) : number :=
  let r := round53 z in
  if 2 ^ 1024 <=? Z.abs r then Inf (z <? 0) else Num r.

(** [a * b] and [a + b]: the exact result, rounded. *)
Definition num_mul (a b : number) : number :=
  match a, b with
  | NaN, _ | _, NaN => NaN
  | Inf s, Inf t => Inf (xorb s t)
  | Inf s, Num y | Num y, Inf s =>
      if y =? 0 then NaN else Inf (xorb s (y <? 0))
  | Num x, Num y => to_number (x * y)
  end.

Definition num_add (a b : number) : number :=
  match a, b with
  | NaN, _ | _, NaN => NaN
  | Inf s, Inf t => if Bool.eqb s t then Inf s else NaN
  | Inf s, Num _ | Num _, Inf s => Inf s
  | Num x, Num y => to_number (x + y)
  end.

(** [a > b]; a comparison with [NaN] is false. *)
Definition num_gt (a b : number) : bool :=
  match a, b with
  | NaN, _ | _, NaN => false
  | Inf s, Inf t => negb s && t
  | Inf s, Num _ => negb s
  | Num _, Inf t => t
  | Num x, Num y => y <? x
  end.

Definition num_opp (a : number) : number :=
  match a with
  | NaN => NaN
  | Inf s => Inf (negb s)
  | Num z => Num (- z)
  end.

(** *** [Number::toString]

    For a finite [x] the standard takes integers [n], [k], [s] with [s] of
    [k] digits, [s * 10^(n-k)] of Number value [x], and [k] as small as
    possible (the closest to [x] when several [s] do, then the even one).  It
    prints the digits of [s] followed by [n-k] zeros when [n <= 21], and
    [d.ddd e+(n-1)] beyond. *)

Definition digits_string (a : Z) : string :=
  NilZero.string_of_uint (N.to_uint (Z.to_N a)).

Definition ndigits (a : Z) : Z :=
  Z.of_nat (String.length (digits_string a)).

Fixpoint zeros (n : nat) : string :=
  match n with
  | O => EmptyString
  | S n' => String "0" (zeros n')
  end.

(** The [(s, n)] to try for [k] digits: the two neighbours of [x] among the
    multiples of [10^(n-k)], and for one digit the next power of ten. *)
Definition candidates (x k : Z) : list (Z * Z) :=
  let nd := ndigits x in
  let lo := x / 10 ^ (nd - k) in
  [(lo, nd); (lo + 1, nd)] ++ (if k =? 1 then [(1, nd + 1)] else []).

(** [s] has [k] digits and [s * 10^(n-k)] has Number value [x]. *)
Definition denotes (x k : Z) (c : Z * Z) : bool :=
  let '(s, n) := c in
  (10 ^ (k - 1) <=? s) && (s <? 10 ^ k)
  && bool_decide (to_number (s * 10 ^ (n - k)) = Num x).

Definition closer (x k : Z) (c best : Z * Z) : bool :=
  let d c := Z.abs (fst c * 10 ^ (snd c - k) - x) in
  (d c <? d best) || ((d c =? d best) && Z.even (fst c)).

Definition best_candidate (x k : Z) : option (Z * Z) :=
  fold_left
    (fun best c =>
       if denotes x k c
       then match best with
            | None => Some c
            | Some b => if closer x k c b then Some c else Some b
            end
       else best)
    (candidates x k) None.

(** The least [k] from [k] on, with its [s] and [n]; 17 digits always
    suffice for a double. *)
Fixpoint shortest (x : Z) (k : Z) (fuel : nat) : Z * Z * Z :=
  match fuel with
  | O => (x, k, k)
  | S fuel' =>
      match best_candidate x k with
      | Some (s, n) => (s, k, n)
      | None => shortest x (k + 1) fuel'
      end
  end.

Definition format_digits (x : Z) : string :=
  let '(s, k, n) := shortest x 1 17 in
  if n <=? 21
  then digits_string s ++ zeros (Z.to_nat (n - k))
  else
    match digits_string s with
    | EmptyString => EmptyString
    | String c rest =>
        String c (if k =? 1 then EmptyString else String "." rest)
        ++ "e+" ++ digits_string (n - 1)
    end.

(** [ToString] of a Number.  Up to [MAX_SAFE_INTEGER] every integer is a
    double and its neighbours are too, so the shortest digits that denote it
    are all its digits: they are printed directly. *)
Definition Number_toString (x : number) : string :=
  match x with
  | NaN => "NaN"
  | Inf false => "Infinity"
  | Inf true => "-Infinity"
  | Num z =>
      if Z.abs z <=? MAX_SAFE_INTEGER
      then NilZero.string_of_int (Z.to_int z)
      else (if z <? 0 then "-" else "") ++ format_digits (Z.abs z)
  end.

(** [StrWhiteSpaceChar], on one-byte characters. *)
Definition is_whitespace (c : ascii) : bool :=
  match N_of_ascii c with
  | 9 | 10 | 11 | 12 | 13 | 32 | 160 => true
  | _ => false
  end%N.

Fixpoint skip_whitespace (s : string) : string :=
  match s with
  | EmptyString => EmptyString
  | String c s' => if is_whitespace c then skip_whitespace s' else s
  end.

(** The longest prefix of decimal digits. *)
Fixpoint decimal_prefix (s : string) : Decimal.uint :=
  match s with
  | EmptyString => Decimal.Nil
  | String c s' =>
      match c with
      | "0" => Decimal.D0 (decimal_prefix s')
      | "1" => Decimal.D1 (decimal_prefix s')
      | "2" => Decimal.D2 (decimal_prefix s')
      | "3" => Decimal.D3 (decimal_prefix s')
      | "4" => Decimal.D4 (decimal_prefix s')
      | "5" => Decimal.D5 (decimal_prefix s')
      | "6" => Decimal.D6 (decimal_prefix s')
      | "7" => Decimal.D7 (decimal_prefix s')
      | "8" => Decimal.D8 (decimal_prefix s')
      | "9" => Decimal.D9 (decimal_prefix s')
      | _ => Decimal.Nil
      end%char
  end.

(** The longest prefix of hexadecimal digits, of either case. *)
Fixpoint hex_prefix (s : string) : Hexadecimal.uint :=
  match s with
  | EmptyString => Hexadecimal.Nil
  | String c s' =>
      match c with
      | "0" => Hexadecimal.D0 (hex_prefix s')
      | "1" => Hexadecimal.D1 (hex_prefix s')
      | "2" => Hexadecimal.D2 (hex_prefix s')
      | "3" => Hexadecimal.D3 (hex_prefix s')
      | "4" => Hexadecimal.D4 (hex_prefix s')
      | "5" => Hexadecimal.D5 (hex_prefix s')
      | "6" => Hexadecimal.D6 (hex_prefix s')
      | "7" => Hexadecimal.D7 (hex_prefix s')
      | "8" => Hexadecimal.D8 (hex_prefix s')
      | "9" => Hexadecimal.D9 (hex_prefix s')
      | "a" | "A" => Hexadecimal.Da (hex_prefix s')
      | "b" | "B" => Hexadecimal.Db (hex_prefix s')
      | "c" | "C" => Hexadecimal.Dc (hex_prefix s')
      | "d" | "D" => Hexadecimal.Dd (hex_prefix s')
      | "e" | "E" => Hexadecimal.De (hex_prefix s')
      | "f" | "F" => Hexadecimal.Df (hex_prefix s')
      | _ => Hexadecimal.Nil
      end%char
  end.

(** The Number value of the digits read: the exact integer, rounded. *)
Definition of_decimal (d : Decimal.uint) : number :=
  match d with
  | Decimal.Nil => NaN
  | _ => to_number (Z.of_uint d)
  end.

Definition of_hexadecimal (d : Hexadecimal.uint) : number :=
  match d with
  | Hexadecimal.Nil => NaN
  | _ => to_number (Z.of_hex_uint d)
  end.

(** The digits after the sign: a [0x] or [0X] prefix selects radix 16. *)
Definition parse_magnitude (s : string) : number :=
  match s with
  | String "0" (String "x" s') | String "0" (String "X" s') =>
      of_hexadecimal (hex_prefix s')
  | _ => of_decimal (decimal_prefix s)
  end.

(** [parseInt(s)] on a string, radix left out: the Number value of the
    integer the digits write, with its sign. *)
Definition parseInt_string (s : string) : number :=
  match skip_whitespace s with
  | String "-" s' => num_opp (parse_magnitude s')
  | String "+" s' => parse_magnitude s'
  | s' => parse_magnitude s'
  end.

(** [parseInt(x)] on a Number: the argument is first converted to a string. *)
Definition parseInt (x : number) : number :=
  parseInt_string (Number_toString x).

(** ** The entity validator *)

(** Modelled from the spec: part of the Entity Validator (section 4.1,
    "presence and type"): a field that must be a string. *)
Definition field_string (o : obj) (k : string) : option string :=
  match o !! k with
  | Some (VStr s) => Some s
  | _ => None
  end.

(** Modelled from the spec: part of the Entity Validator (section 4.1,
    "normalizes numeric fields to a canonical numeric representation"): a
    Number as it is, a decimal string as the integer it writes. *)
Definition field_number (o : obj) (k : string) : option Z :=
  match o !! k with
  | Some (VNum z) => Some z
  | Some (VStr s) => Z.of_int <$> NilZero.int_of_string s
  | _ => None
  end.

(** Modelled from the spec: part of the Entity Validator; the recognized
    variants of [buyOrSell] and of [orderStatus] (section 3). *)
Definition known_side (s : string) : bool :=
  String.eqb s "sell" || String.eqb s "buy".

(** Modelled from the spec: part of the Entity Validator (see [known_side]). *)
Definition known_status (s : string) : bool :=
  String.eqb s "posted" || String.eqb s "taken".

(** Modelled from the spec: the Entity Validator ([entities/order.js],
    [OrderEntity.validate]) is not part of the sources at hand.  Section 4.1:
    it enforces presence and type of all the fields of an Order (section 3),
    which the payload nests under its [data] key (section 6), rejects unknown
    [buyOrSell] values, brings numeric fields to canonical form, and is pure.
    The error it raises on a malformed payload is a [ValidationError]. *)
Definition validate (h : gmap loc obj) (raw : jsval) : Res Order :=
  match read_prop h raw "data" with
  | Ok (VRef ld) =>
      let d := default ∅ (h !! ld) in
      match field_string d "p2wdbHash", field_string d "utxoTxid",
            field_number d "utxoVout", field_string d "buyOrSell",
            field_number d "numTokens", field_number d "rateInSats",
            field_string d "orderStatus" with
      | Some hash, Some txid, Some vout, Some side, Some n, Some rate,
        Some status =>
          if negb (String.eqb hash "") && negb (String.eqb txid "")
             && (0 <=? vout) && known_side side
             && (0 <? n) && (0 <? rate) && known_status status
          then Ok (mkOrder hash txid vout side n rate (Some status))
          else Throw (Error "ValidationError")
      | _, _, _, _, _, _, _ => Throw (Error "ValidationError")
      end
  | Ok _ => Throw (Error "ValidationError")
  | Throw e => Throw e
  end.

(** ** The use cases *)

Section OrderUseCases.

(** [this.adapters] *)
Variable adapters : Adapters.

(** *** Calls to the collaborators: each is logged, then answered. *)

Definition call {A} (e : Event) (answer : list Event -> Res A) : M A :=
  fun w => (answer (log w), mkWorld (heap w) (orders w) (log w ++ [e])).

Definition bchjs_getTxOut (txid vout : jsval) : M jsval :=
  call (EGetTxOut txid vout) (fun l => getTxOut adapters l txid vout).

Definition p2wdb_checkForSufficientFunds (wif : jsval) : M jsval :=
  call (ECheckForSufficientFunds wif)
       (fun l => checkForSufficientFunds adapters l wif).

Definition wallet_getBalance : M Z :=
  call EGetBalance (getBalance adapters).

Definition wallet_generatePartialTx (orderInfo : Doc) : M jsval :=
  call (EGeneratePartialTx orderInfo)
       (fun l => generatePartialTx adapters l orderInfo).

(** *** The Order Store *)

(** Modelled from the spec: the Order Store ([adapters.localdb.Order], a
    document model) is not part of the sources at hand.  Sections 2, 3 and
    4.3: a repository of Order records keyed by [p2wdbHash], the primary
    lookup key; [save] commits the record or fails on a storage fault;
    lookup by hash yields the record or nothing; [find] yields all records.
    [OrderModel_save e] is [new this.OrderModel(e).save()]. *)
Definition OrderModel_save (e : Order) : M unit :=
  fun w =>
    let l := (log w ++ [ESave e])%list in
    match storage_fault adapters (log w) e with
    | Some err => (Throw err, mkWorld (heap w) (orders w) l)
    | None =>
        let d := mkDoc (object_id adapters (log w)) e in
        (Ok tt, mkWorld (heap w) (<[p2wdbHash e := d]> (orders w)) l)
    end.

(** Modelled from the spec: the Order Store, lookup by hash (section 4.3).
    [this.OrderModel.findOne({ p2wdbHash })]: the record or [null]. *)
Definition OrderModel_findOne (hash : string) : M (option Doc) :=
  fun w =>
    (Ok (orders w !! hash),
     mkWorld (heap w) (orders w) (log w ++ [EFindOne hash])).

(** Modelled from the spec: the Order Store, [findAll] (section 4.3).
    [this.OrderModel.find({})]: all the records, in no particular order. *)
Definition OrderModel_find : M (list Doc) :=
  fun w =>
    (Ok (snd <$> map_to_list (orders w)),
     mkWorld (heap w) (orders w) (log w ++ [EFind])).

(** *** createOrder *)

Definition createOrder (orderObj : jsval) : M bool :=
  try_catch
    (let* data := get orderObj "data" in
     let* txid := get data "utxoTxid" in
     let* data := get orderObj "data" in
     let* vout := get data "utxoVout" in
     let* utxoStatus := bchjs_getTxOut txid vout in
     if is_null utxoStatus then ret false
     else
       (* A new order gets a status of 'posted' *)
       let* data := get orderObj "data" in
       set data "orderStatus" (VStr "posted");;
       let* h := get_heap in
       let* orderEntity := lift (validate h orderObj) in
       (* Add order to the local database. *)
       OrderModel_save orderEntity;;
       ret true)
    (fun err => throw err).

(** *** listOrders *)

Definition listOrders : M (list Doc) :=
  try_catch OrderModel_find (fun error => throw error).

(** *** findOrderByHash *)

Definition findOrderByHash (p2wdbHash : jsval) : M Doc :=
  try_catch
    (if negb (String.eqb (typeof p2wdbHash) "string")
        || negb (truthy p2wdbHash)
     then throw (Error "p2wdbHash must be a string")
     else
       let* order :=
         match p2wdbHash with
         | VStr hash => OrderModel_findOne hash
         | _ => ret None
         end in
       match order with
       | None => throw (Error "order not found")
       | Some order =>
           let orderObject := order in
           ret orderObject
       end)
    (fun err => throw err).

(** *** ensureFunds *)

Definition SATS_MARGIN : Z := 5000.

Definition ensureFunds (orderEntity : Doc) : M bool :=
  try_catch
    (let o := doc_order orderEntity in
     (* Ensure the app wallet has enough funds to write to the P2WDB. *)
     let wif := privateKey adapters in
     let* canWriteToP2WDB := p2wdb_checkForSufficientFunds wif in
     if negb (truthy canWriteToP2WDB)
     then throw (Error "App wallet does not have funds for writing to the P2WDB.")
     else
       (if includes (buyOrSell o) "sell"
        then
          (* Sell Offer *)
          let satsNeeded :=
            num_mul (to_number (numTokens o))
                    (parseInt (to_number (rateInSats o))) in
          let* balance := wallet_getBalance in
          if num_gt (num_add satsNeeded (Num SATS_MARGIN)) (to_number balance)
          then throw (Error "App wallet does not control enough BCH to purchase the tokens.")
          else ret tt
        else
          (* Buy Offer *)
          throw (Error "Buy orders are not supported yet."));;
       ret true)
    (fun err => throw err).

(** *** takeOrder *)

(** [orderInfo.orderStatus] as a JavaScript value. *)
Definition status_value (o : Order) : jsval :=
  match orderStatus o with
  | Some s => VStr s
  | None => VUndef
  end.

(** [a !== b] *)
Definition strict_ne (a b : jsval) : bool := negb (bool_decide (a = b)).

Definition takeOrder (orderCid : jsval) : M jsval :=
  try_catch
    ((* Get the Order information *)
     let* orderInfo := findOrderByHash orderCid in
     let o := doc_order orderInfo in
     (* Ensure the order is in a 'posted' state and not already 'taken' *)
     if truthy (status_value o) && strict_ne (status_value o) (VStr "posted")
     then throw (Error "order already taken")
     else
       (* Verify that UTXO for sale is unspent. *)
       let txid := VStr (utxoTxid o) in
       let vout := VNum (utxoVout o) in
       let* utxoStatus := bchjs_getTxOut txid vout in
       if is_null utxoStatus
       then throw (Error "UTXO does not exist. Aborting.")
       else
         (* Ensure the app has enough funds to complete the trade. *)
         ensureFunds orderInfo;;
         (* Get UTXOs. *)
         let utxos := utxoStore adapters in
         (* Create a partially signed transaction. *)
         let* partialTxHex := wallet_generatePartialTx orderInfo in
         ret partialTxHex)
    (fun err => throw err).

End OrderUseCases.

(** ** The constructor *)

(** The fields the constructor sets on [this]. *)
Record Instance := mkInstance {
  this_adapters : jsval;
  this_orderEntity : jsval;
  this_OrderModel : jsval
}.

Section Constructor.

(** The outcome of [new OrderEntity()]; the class is not part of the sources
    at hand, and the constructor only stores what it gets. *)
Variable new_OrderEntity : Res jsval.

(** [new OrderUseCases(localConfig)], that is [constructor (localConfig = {})].
    The default applies to [undefined] only, and the default object has no
    [adapters] property. *)
Definition new_OrderUseCases (localConfig : jsval) : M Instance :=
  let* adapters :=
    match localConfig with
    | VUndef => ret VUndef
    | _ => get localConfig "adapters"
    end in
  if negb (truthy adapters)
  then throw (Error "Instance of adapters must be passed in when instantiating Order Use Cases library.")
  else
    let* orderEntity := lift new_OrderEntity in
    let* localdb := get adapters "localdb" in
    let* OrderModel := get localdb "Order" in
    ret (mkInstance adapters orderEntity OrderModel).

End Constructor.

(** Collaborators whose answers do not depend on what was called before. *)
Definition history_independent (A : Adapters) : Prop :=
  (forall l l' txid vout, getTxOut A l txid vout = getTxOut A l' txid vout) /\
  (forall l l' wif,
      checkForSufficientFunds A l wif = checkForSufficientFunds A l' wif) /\
  (forall l l', getBalance A l = getBalance A l') /\
  (forall l l' d, generatePartialTx A l d = generatePartialTx A l' d).

(** The status guard of [takeOrder]:
    [orderInfo.orderStatus && orderInfo.orderStatus !== 'posted']. *)
Definition already_taken (o : Order) : bool :=
  truthy (status_value o) && strict_ne (status_value o) (VStr "posted").

(** ** The solvency test, and where its arithmetic is exact *)

(** [satsNeeded + SATS_MARGIN > balance], as [ensureFunds] computes it. *)
Definition short_of_funds (o : Order) (balance : Z) : bool :=
  let satsNeeded :=
    num_mul (to_number (numTokens o)) (parseInt (to_number (rateInSats o))) in
  num_gt (num_add satsNeeded (Num SATS_MARGIN)) (to_number balance).

(** [Number.isSafeInteger] *)
Definition safe_integer (z : Z) : Prop := Z.abs z <= MAX_SAFE_INTEGER.

(** The quantities of the order, their product and the product with the
    margin are safe integers. *)
Definition within_safe_integers (o : Order) : Prop :=
  safe_integer (numTokens o) /\
  safe_integer (rateInSats o) /\
  safe_integer (numTokens o * rateInSats o) /\
  safe_integer (numTokens o * rateInSats o + SATS_MARGIN).

(** ** Predicates used by the statements *)

(** [persisted w d]: the store of [w] holds [d] under the hash assigned to
    it, a non-empty identifier. *)
Definition persisted (w : World) (d : Doc) : Prop :=
  p2wdbHash (doc_order d) <> "" /\
  orders w !! p2wdbHash (doc_order d) = Some d.

(** The calls [takeOrder] may make: the lookup in the store, the oracle and
    the wallet. *)
Definition is_lookup_or_network (e : Event) : bool :=
  match e with
  | EFindOne _ => true
  | _ => is_oracle_or_wallet e
  end.

(** [confined P m]: [m] leaves the heap and the Order Store as they are, and
    every call it makes satisfies [P]. *)
Definition confined {A} (P : Event -> bool) (m : M A) : Prop :=
  forall w,
    heap (snd (m w)) = heap w /\
    orders (snd (m w)) = orders w /\
    exists evs, log (snd (m w)) = (log w ++ evs)%list /\
                forallb P evs = true.

(** [s] contains [t] as a substring. *)
Definition contains (s t : string) : Prop :=
  exists pre post, s = pre ++ t ++ post.

(** The heap after [data.orderStatus = 'posted'] on the object at [ld]. *)
Definition mark_posted (h : gmap loc obj) (ld : loc) : gmap loc obj :=
  <[ld := <["orderStatus" := VStr "posted"]> (default ∅ (h !! ld))]> h.

(** ** A scenario: the order of section 8 of the specification

    Order abc:0, selling 10 tokens at 100 satoshis each. *)
Module Scenario.

(** Collaborators with fixed answers. *)
Definition fixed (utxo can : jsval) (balance : Z) (fault : option exn)
  : Adapters :=
  mkAdapters (fun _ _ _ => Ok utxo) (VStr "L1wif")
             (fun _ _ => Ok can) (fun _ => Ok balance)
             (VRef 9%positive) (fun _ _ => Ok (VStr "0200abcd"))
             (fun _ _ => fault) (fun _ => "6541").

Definition utxo_info : jsval := VRef 7%positive.

(** The webhook payload [{ data: { ... } }], at locations 1 and 2. *)
Definition payload_data : obj :=
  <["p2wdbHash" := VStr "zdpu1"]>
    (<["utxoTxid" := VStr "abc"]>
       (<["utxoVout" := VNum 0]>
          (<["buyOrSell" := VStr "sell"]>
             (<["numTokens" := VNum 10]>
                (<["rateInSats" := VNum 100]> ∅))))).

Definition payload_heap : gmap loc obj :=
  <[1%positive := <["data" := VRef 2%positive]> ∅]>
    (<[2%positive := payload_data]> ∅).

Definition payload : jsval := VRef 1%positive.

Definition fresh : World := mkWorld payload_heap ∅ [].

Definition order (side : string) (status : option string) : Order :=
  mkOrder "zdpu1" "abc" 0 side 10 100 status.

Definition doc (side : string) (status : option string) : Doc :=
  mkDoc "6541" (order side status).

(** A world whose store holds the order. *)
Definition holding (side : string) (status : option string) : World :=
  mkWorld ∅ {[ "zdpu1" := doc side status ]} [].

End Scenario.

(** * Properties *)

(** ** [parseInt] on an integer gives the integer back *)

Example parseInt_100 : parseInt (Num 100) = Num 100.
Proof. reflexivity. Qed.

Example parseInt_string_px : parseInt_string "  -12px" = Num (-12).
Proof. reflexivity. Qed.

Example parseInt_string_hex : parseInt_string "0x1f" = Num 31.
Proof. reflexivity. Qed.

Example parseInt_string_nan : parseInt_string "sats" = NaN.
Proof. reflexivity. Qed.

(** Beyond the safe integers: rounding, printing and parsing. *)

Example to_number_rounds :
  to_number (94906267 * 94906267) = Num 9007199515875288.
Proof. vm_compute. reflexivity. Qed.

Example to_number_ties_to_even : to_number (2 ^ 53 + 3) = Num (2 ^ 53 + 4).
Proof. vm_compute. reflexivity. Qed.

Example to_number_overflows : to_number (2 ^ 1024) = Inf false.
Proof. vm_compute. reflexivity. Qed.

Example Number_toString_2_64 :
  Number_toString (to_number (2 ^ 64)) = "18446744073709552000".
Proof. vm_compute. reflexivity. Qed.

Example Number_toString_1e21 : Number_toString (to_number (10 ^ 21)) = "1e+21".
Proof. vm_compute. reflexivity. Qed.

Example Number_toString_2_70 :
  Number_toString (to_number (2 ^ 70)) = "1.1805916207174113e+21".
Proof. vm_compute. reflexivity. Qed.

Example Number_toString_1e23 : Number_toString (to_number (10 ^ 23)) = "1e+23".
Proof. vm_compute. reflexivity. Qed.

Example Number_toString_MAX_VALUE :
  Number_toString (to_number ((2 ^ 53 - 1) * 2 ^ 971))
  = "1.7976931348623157e+308".
Proof. vm_compute. reflexivity. Qed.

Example parseInt_1e21 : parseInt (to_number (10 ^ 21)) = Num 1.
Proof. vm_compute. reflexivity. Qed.

Example parseInt_2_64 : parseInt (to_number (2 ^ 64)) = Num (2 ^ 64).
Proof. vm_compute. reflexivity. Qed.

(** A safe integer is its own Number value. *)
Lemma safe_integer_lt (z : Z) : safe_integer z -> Z.abs z < 2 ^ 53.
Proof.
  unfold safe_integer, MAX_SAFE_INTEGER. lia.
Qed.

Lemma round53_safe (z : Z) : safe_integer z -> round53 z = z.
Proof.
  intros Hz%safe_integer_lt. unfold round53. cbv zeta.
  destruct (Z.eq_dec (Z.abs z) 0) as [H0|H0].
  - rewrite H0. reflexivity.
  - assert (Z.log2 (Z.abs z) < 53) by (apply Z.log2_lt_pow2; lia).
    destruct (Z.leb_spec (Z.log2 (Z.abs z) - 52) 0); [reflexivity | lia].
Qed.

Lemma to_number_safe (z : Z) : safe_integer z -> to_number z = Num z.
Proof.
  intros Hz. unfold to_number. cbv zeta. rewrite (round53_safe z Hz).
  apply safe_integer_lt in Hz.
  assert (2 ^ 53 <= 2 ^ 1024) by (apply Z.pow_le_mono_r; lia).
  destruct (Z.leb_spec (2 ^ 1024) (Z.abs z)); [lia | reflexivity].
Qed.

Lemma safe_integer_opp (z : Z) : safe_integer z -> safe_integer (- z).
Proof. unfold safe_integer. now rewrite Z.abs_opp. Qed.

Lemma decimal_prefix_digits (d : Decimal.uint) :
  decimal_prefix (NilEmpty.string_of_uint d) = d.
Proof. induction d; simpl; congruence. Qed.

Lemma parse_magnitude_digits (d : Decimal.uint) :
  d <> Decimal.Nil ->
  parse_magnitude (NilEmpty.string_of_uint d) = to_number (Z.of_uint d).
Proof.
  intros Hd.
  destruct d as [|d|d|d|d|d|d|d|d|d|d]; try congruence;
    try (cbn -[Z.of_uint to_number]; now rewrite decimal_prefix_digits).
  (* a leading 0 is followed by a digit or by nothing, never by x *)
  destruct d; cbn -[Z.of_uint to_number]; try reflexivity;
    now rewrite decimal_prefix_digits.
Qed.

Lemma parseInt_string_digits (d : Decimal.uint) :
  d <> Decimal.Nil ->
  parseInt_string (NilEmpty.string_of_uint d) = to_number (Z.of_uint d).
Proof.
  intros Hd. rewrite <- (parse_magnitude_digits d Hd).
  destruct d; try congruence; reflexivity.
Qed.

Lemma parseInt_string_neg_digits (d : Decimal.uint) :
  d <> Decimal.Nil ->
  parseInt_string (String "-" (NilEmpty.string_of_uint d))
  = num_opp (to_number (Z.of_uint d)).
Proof.
  intros Hd.
  change (num_opp (parse_magnitude (NilEmpty.string_of_uint d))
          = num_opp (to_number (Z.of_uint d))).
  now rewrite parse_magnitude_digits.
Qed.

Lemma string_of_uint_nonnil (d : Decimal.uint) :
  d <> Decimal.Nil -> NilZero.string_of_uint d = NilEmpty.string_of_uint d.
Proof. intros Hd. destruct d; [congruence | reflexivity ..]. Qed.

(** On a safe integer [parseInt] is the identity. *)
Lemma parseInt_Number (z : Z) : safe_integer z -> parseInt (Num z) = Num z.
Proof.
  intros Hz. unfold parseInt, Number_toString.
  replace (Z.abs z <=? MAX_SAFE_INTEGER) with true
    by (symmetry; apply Z.leb_le; exact Hz).
  destruct z as [|p|p]; [reflexivity| |];
    simpl Z.to_int; unfold NilZero.string_of_int;
    rewrite (string_of_uint_nonnil _ (Unsigned.to_uint_nonnil p)).
  - rewrite (parseInt_string_digits _ (Unsigned.to_uint_nonnil p)).
    unfold Z.of_uint. rewrite Unsigned.of_to. now apply to_number_safe.
  - rewrite (parseInt_string_neg_digits _ (Unsigned.to_uint_nonnil p)).
    unfold Z.of_uint. rewrite Unsigned.of_to.
    change (Z.of_N (N.pos p)) with (Z.pos p).
    rewrite (to_number_safe (Z.pos p)); [reflexivity|].
    now apply safe_integer_opp in Hz.
Qed.

(** Within the safe integers the solvency test is the comparison of the
    exact amounts. *)
Lemma short_of_funds_exact (o : Order) (balance : Z) :
  within_safe_integers o ->
  safe_integer balance ->
  short_of_funds o balance
  = (balance <? numTokens o * rateInSats o + 5000).
Proof.
  intros (Hn & Hr & Hp & Hs) Hb. unfold short_of_funds. cbv zeta.
  rewrite (to_number_safe _ Hn), (to_number_safe _ Hr), (to_number_safe _ Hb).
  rewrite (parseInt_Number _ Hr). cbn [num_mul].
  rewrite (to_number_safe _ Hp). cbn [num_add].
  unfold SATS_MARGIN in *. rewrite (to_number_safe _ Hs). reflexivity.
Qed.

(** ** [includes] is substring containment *)

Lemma append_String (c : ascii) (s t : string) :
  String c s ++ t = String c (s ++ t).
Proof. reflexivity. Qed.

Lemma prefix_app (t s : string) :
  String.prefix t s = true <-> exists post, s = t ++ post.
Proof.
  revert s. induction t as [|a t IH]; intros s.
  - split; [intros _; exists s; reflexivity | intros _; now destruct s].
  - destruct s as [|b s]; simpl.
    + split; [discriminate | intros [post H]; discriminate].
    + destruct (ascii_dec a b) as [->|Hne].
      * rewrite IH. split; intros [post H]; exists post;
          rewrite append_String in *; congruence.
      * split; [discriminate|].
        intros [post H]. rewrite append_String in H. congruence.
Qed.

Lemma includes_contains (s t : string) :
  includes s t = true <-> contains s t.
Proof.
  unfold contains. induction s as [|c s IH].
  - cbn [includes]. rewrite orb_false_r, prefix_app. split.
    + intros [post H]. exists "", post. exact H.
    + intros [pre [post H]]. destruct pre; [exists post; exact H|discriminate].
  - cbn [includes]. rewrite orb_true_iff, IH, prefix_app. split.
    + intros [[post H]|[pre [post H]]].
      * exists "", post. exact H.
      * exists (String c pre), post. rewrite append_String. now rewrite H.
    + intros [[|c' pre] [post H]].
      * left. exists post. exact H.
      * right. exists pre, post. rewrite append_String in H. congruence.
Qed.

Lemma includes_not_contains (s t : string) :
  includes s t = false <-> ~ contains s t.
Proof.
  rewrite <- includes_contains. destruct (includes s t); split; congruence.
Qed.

Example includes_buysell : includes "buysell" "sell" = true.
Proof. reflexivity. Qed.

Example includes_buy : includes "buy" "sell" = false.
Proof. reflexivity. Qed.

(** ** Laws of the monad *)

Lemma bind_Ok {A B} (m : M A) (f : A -> M B) w a w' :
  m w = (Ok a, w') -> bind m f w = f a w'.
Proof. unfold bind. now intros ->. Qed.

Lemma bind_Throw {A B} (m : M A) (f : A -> M B) w e w' :
  m w = (Throw e, w') -> bind m f w = (Throw e, w').
Proof. unfold bind. now intros ->. Qed.

(** A handler that only rethrows changes nothing. *)
Lemma try_catch_rethrow {A} (m : M A) w :
  try_catch m (fun err => throw err) w = m w.
Proof. unfold try_catch, throw. now destruct (m w) as [[a|e] w']. Qed.

Lemma String_eqb_empty (s : string) : s <> "" -> String.eqb s "" = false.
Proof. intros H. now apply String.eqb_neq. Qed.

(** ** The use cases, path by path *)

Section Paths.

Variable adapters : Adapters.

Lemma findOrderByHash_found (hash : string) (d : Doc) (w : World) :
  hash <> "" ->
  orders w !! hash = Some d ->
  findOrderByHash (VStr hash) w
  = (Ok d, mkWorld (heap w) (orders w) (log w ++ [EFindOne hash])).
Proof.
  intros Hne Hd. unfold findOrderByHash. rewrite try_catch_rethrow.
  cbn [typeof truthy]. rewrite (String_eqb_empty _ Hne).
  change (String.eqb "string" "string") with true. cbn [negb orb].
  unfold bind, OrderModel_findOne. rewrite Hd. reflexivity.
Qed.

(** The P2WDB funds check comes first, whatever the order. *)
Lemma ensureFunds_refused (d : Doc) (w : World) (v : jsval) :
  checkForSufficientFunds adapters (log w) (privateKey adapters) = Ok v ->
  truthy v = false ->
  ensureFunds adapters d w
  = (Throw (Error "App wallet does not have funds for writing to the P2WDB."),
     mkWorld (heap w) (orders w)
             (log w ++ [ECheckForSufficientFunds (privateKey adapters)])).
Proof.
  intros Hcan Hv. unfold ensureFunds. rewrite try_catch_rethrow.
  unfold bind, p2wdb_checkForSufficientFunds, call. rewrite Hcan, Hv.
  reflexivity.
Qed.

(** The sell side: the balance is read and compared. *)
Lemma ensureFunds_sell (d : Doc) (w : World) (v : jsval) :
  checkForSufficientFunds adapters (log w) (privateKey adapters) = Ok v ->
  truthy v = true ->
  includes (buyOrSell (doc_order d)) "sell" = true ->
  let wif := privateKey adapters in
  ensureFunds adapters d w
  = (match getBalance adapters (log w ++ [ECheckForSufficientFunds wif]) with
     | Ok balance =>
         if short_of_funds (doc_order d) balance
         then Throw (Error "App wallet does not control enough BCH to purchase the tokens.")
         else Ok true
     | Throw e => Throw e
     end,
     mkWorld (heap w) (orders w)
             (log w ++ [ECheckForSufficientFunds wif; EGetBalance])).
Proof.
  intros Hcan Hv Hsell wif. unfold ensureFunds.
  rewrite try_catch_rethrow.
  unfold bind, p2wdb_checkForSufficientFunds, wallet_getBalance, call.
  rewrite Hcan, Hv, Hsell. cbn [negb log heap orders].
  rewrite <- app_assoc. cbn [app].
  destruct (getBalance adapters _) as [balance|e]; [|reflexivity].
  unfold short_of_funds. cbv zeta.
  now destruct (num_gt _ _).
Qed.

(** Every other order: rejected before the balance is read. *)
Lemma ensureFunds_not_sell (d : Doc) (w : World) (v : jsval) :
  checkForSufficientFunds adapters (log w) (privateKey adapters) = Ok v ->
  truthy v = true ->
  includes (buyOrSell (doc_order d)) "sell" = false ->
  ensureFunds adapters d w
  = (Throw (Error "Buy orders are not supported yet."),
     mkWorld (heap w) (orders w)
             (log w ++ [ECheckForSufficientFunds (privateKey adapters)])).
Proof.
  intros Hcan Hv Hsell. unfold ensureFunds. rewrite try_catch_rethrow.
  unfold bind, p2wdb_checkForSufficientFunds, call.
  rewrite Hcan, Hv, Hsell. reflexivity.
Qed.

(** [takeOrder] past the status guard, up to the liveness check. *)
Lemma takeOrder_guard_passes (d : Doc) (w : World) :
  persisted w d ->
  orderStatus (doc_order d) = Some "posted"
  \/ orderStatus (doc_order d) = Some ""
  \/ orderStatus (doc_order d) = None ->
  let hash := p2wdbHash (doc_order d) in
  let txid := VStr (utxoTxid (doc_order d)) in
  let vout := VNum (utxoVout (doc_order d)) in
  takeOrder adapters (VStr hash) w
  = match getTxOut adapters (log w ++ [EFindOne hash]) txid vout with
    | Ok utxoStatus =>
        if is_null utxoStatus
        then (Throw (Error "UTXO does not exist. Aborting."),
              mkWorld (heap w) (orders w)
                      (log w ++ [EFindOne hash; EGetTxOut txid vout]))
        else
          bind (ensureFunds adapters d)
               (fun _ => wallet_generatePartialTx adapters d)
               (mkWorld (heap w) (orders w)
                        (log w ++ [EFindOne hash; EGetTxOut txid vout]))
    | Throw e =>
        (Throw e,
         mkWorld (heap w) (orders w)
                 (log w ++ [EFindOne hash; EGetTxOut txid vout]))
    end.
Proof.
  intros [Hne Hd] Hs hash txid vout. unfold takeOrder.
  rewrite try_catch_rethrow.
  rewrite (bind_Ok _ _ _ _ _ (findOrderByHash_found _ _ _ Hne Hd)).
  assert (truthy (status_value (doc_order d))
          && strict_ne (status_value (doc_order d)) (VStr "posted") = false)
    as ->.
  { unfold status_value, strict_ne.
    destruct Hs as [-> | [-> | ->]]; reflexivity. }
  fold hash txid vout.
  unfold bind at 1. unfold bchjs_getTxOut, call. cbn [log heap orders].
  rewrite <- app_assoc. cbn [app].
  destruct (getTxOut adapters _ txid vout) as [u|e]; [|reflexivity].
  destruct (is_null u); [reflexivity|].
  unfold bind, ret.
  destruct (ensureFunds adapters d _) as [[b|e] w1]; [|reflexivity].
  now destruct (wallet_generatePartialTx adapters d w1) as [[x|e] w2].
Qed.

End Paths.

(** ** The validator and the payload *)

(** What a successful validation says about the payload. *)
Lemma validate_Ok_inv (h : gmap loc obj) (raw : jsval) (e : Order) :
  validate h raw = Ok e ->
  exists ld,
    read_prop h raw "data" = Ok (VRef ld) /\
    p2wdbHash e <> "" /\
    field_string (default ∅ (h !! ld)) "p2wdbHash" = Some (p2wdbHash e) /\
    field_string (default ∅ (h !! ld)) "utxoTxid" = Some (utxoTxid e) /\
    field_number (default ∅ (h !! ld)) "utxoVout" = Some (utxoVout e) /\
    field_string (default ∅ (h !! ld)) "buyOrSell" = Some (buyOrSell e) /\
    field_number (default ∅ (h !! ld)) "numTokens" = Some (numTokens e) /\
    field_number (default ∅ (h !! ld)) "rateInSats" = Some (rateInSats e) /\
    field_string (default ∅ (h !! ld)) "orderStatus" = orderStatus e.
Proof.
  unfold validate.
  destruct (read_prop h raw "data") as [[| | | | |ld]|]; try discriminate.
  set (d := default ∅ (h !! ld)).
  destruct (field_string d "p2wdbHash") as [hash|] eqn:H1; [|discriminate].
  destruct (field_string d "utxoTxid") as [txid|] eqn:H2; [|discriminate].
  destruct (field_number d "utxoVout") as [vout|] eqn:H3; [|discriminate].
  destruct (field_string d "buyOrSell") as [side|] eqn:H4; [|discriminate].
  destruct (field_number d "numTokens") as [n|] eqn:H5; [|discriminate].
  destruct (field_number d "rateInSats") as [rate|] eqn:H6; [|discriminate].
  destruct (field_string d "orderStatus") as [status|] eqn:H7; [|discriminate].
  destruct (String.eqb hash "") eqn:Hhash; [discriminate|].
  destruct (_ && _); [|discriminate].
  intros [= <-]. exists ld. cbn.
  apply String.eqb_neq in Hhash. repeat split; auto.
Qed.

(** The assignment of the status leaves every other property as it was. *)
Lemma read_prop_mark_posted (h : gmap loc obj) (ld : loc) (v : jsval)
      (k : string) :
  k <> "orderStatus" ->
  read_prop (mark_posted h ld) v k = read_prop h v k.
Proof.
  intros Hk. destruct v as [| | | | |l]; try reflexivity.
  unfold read_prop, mark_posted.
  destruct (decide (l = ld)) as [->|Hl].
  - rewrite lookup_insert_eq, lookup_insert_ne by congruence.
    now destruct (h !! ld).
  - now rewrite lookup_insert_ne by congruence.
Qed.

(** The status is read back from the object it was assigned to. *)
Lemma read_prop_posted (h : gmap loc obj) (ld : loc) :
  read_prop (mark_posted h ld) (VRef ld) "orderStatus" = Ok (VStr "posted").
Proof.
  unfold read_prop, mark_posted. now rewrite !lookup_insert_eq.
Qed.

(** An entity validated after the assignment carries the status 'posted'. *)
Lemma validate_posted (h : gmap loc obj) (ld : loc) (raw : jsval) (e : Order) :
  read_prop h raw "data" = Ok (VRef ld) ->
  validate (mark_posted h ld) raw = Ok e ->
  orderStatus e = Some "posted".
Proof.
  intros Hdata Hval.
  destruct (validate_Ok_inv _ _ _ Hval) as (ld' & Hdata' & _ & _ & _ & _ & _ & _ & _ & Hst).
  rewrite read_prop_mark_posted, Hdata in Hdata' by discriminate.
  injection Hdata' as <-.
  rewrite <- Hst. unfold mark_posted, field_string.
  now rewrite lookup_insert_eq; cbn; rewrite lookup_insert_eq.
Qed.

Section CreatePaths.

Variable adapters : Adapters.

(** [createOrder] on a payload whose [data] is an object. *)
Lemma createOrder_steps (orderObj : jsval) (ld : loc) (txid vout : jsval)
      (w : World) :
  read_prop (heap w) orderObj "data" = Ok (VRef ld) ->
  read_prop (heap w) (VRef ld) "utxoTxid" = Ok txid ->
  read_prop (heap w) (VRef ld) "utxoVout" = Ok vout ->
  let l1 := (log w ++ [EGetTxOut txid vout])%list in
  let h' := mark_posted (heap w) ld in
  createOrder adapters orderObj w
  = match getTxOut adapters (log w) txid vout with
    | Throw e => (Throw e, mkWorld (heap w) (orders w) l1)
    | Ok utxoStatus =>
        if is_null utxoStatus
        then (Ok false, mkWorld (heap w) (orders w) l1)
        else
          match validate h' orderObj with
          | Throw e => (Throw e, mkWorld h' (orders w) l1)
          | Ok entity =>
              match storage_fault adapters l1 entity with
              | Some err =>
                  (Throw err,
                   mkWorld h' (orders w)
                           (log w ++ [EGetTxOut txid vout; ESave entity]))
              | None =>
                  (Ok true,
                   mkWorld h'
                     (<[p2wdbHash entity :=
                          mkDoc (object_id adapters l1) entity]> (orders w))
                     (log w ++ [EGetTxOut txid vout; ESave entity]))
              end
          end
    end.
Proof.
  intros Hdata Htxid Hvout l1 h'. unfold createOrder.
  rewrite try_catch_rethrow.
  unfold bind, get, bchjs_getTxOut, call. rewrite Hdata, Htxid, Hvout.
  fold l1. destruct (getTxOut adapters (log w) txid vout) as [u|e];
    [|reflexivity].
  destruct (is_null u); [reflexivity|].
  cbn [heap orders log]. rewrite Hdata. unfold set, get_heap, lift.
  cbn [heap orders log]. fold (mark_posted (heap w) ld). fold h'.
  destruct (validate h' orderObj) as [entity|e]; [|reflexivity].
  unfold OrderModel_save, ret. cbn [heap orders log].
  subst l1. rewrite <- app_assoc. cbn [app].
  now destruct (storage_fault adapters _ entity).
Qed.

(** A successful [createOrder], read backwards. *)
Lemma createOrder_true_inv (orderObj : jsval) (w w' : World) :
  createOrder adapters orderObj w = (Ok true, w') ->
  exists ld txid vout entity,
    read_prop (heap w) orderObj "data" = Ok (VRef ld) /\
    validate (mark_posted (heap w) ld) orderObj = Ok entity /\
    w' = mkWorld (mark_posted (heap w) ld)
           (<[p2wdbHash entity :=
                mkDoc (object_id adapters (log w ++ [EGetTxOut txid vout]))
                      entity]> (orders w))
           (log w ++ [EGetTxOut txid vout; ESave entity]).
Proof.
  intros H.
  destruct (read_prop (heap w) orderObj "data") as [data|e] eqn:Hdata.
  2:{ unfold createOrder in H. rewrite try_catch_rethrow in H.
      unfold bind, get in H. rewrite Hdata in H. discriminate. }
  destruct (read_prop (heap w) data "utxoTxid") as [txid|e] eqn:Htxid.
  2:{ unfold createOrder in H. rewrite try_catch_rethrow in H.
      unfold bind, get in H. rewrite Hdata, Htxid in H. discriminate. }
  destruct (read_prop (heap w) data "utxoVout") as [vout|e] eqn:Hvout.
  2:{ unfold createOrder in H. rewrite try_catch_rethrow in H.
      unfold bind, get in H. rewrite Hdata, Htxid, Hvout in H.
      discriminate. }
  destruct data as [| | | | |ld].
  1-5: try discriminate Htxid;
       unfold createOrder in H; rewrite try_catch_rethrow in H;
       unfold bind, get, bchjs_getTxOut, call, set in H;
       rewrite Hdata, Htxid, Hvout in H;
       destruct (getTxOut adapters (log w) txid vout) as [u|e];
       try discriminate; destruct (is_null u); try discriminate;
       cbn [heap] in H; rewrite Hdata in H; discriminate.
  rewrite (createOrder_steps _ _ _ _ _ Hdata Htxid Hvout) in H.
  destruct (getTxOut adapters (log w) txid vout) as [u|e]; [|discriminate].
  destruct (is_null u); [discriminate|].
  destruct (validate _ orderObj) as [entity|e] eqn:Hval; [|discriminate].
  destruct (storage_fault adapters _ entity); [discriminate|].
  injection H as <-. exists ld, txid, vout, entity. auto.
Qed.

End CreatePaths.

(** ** Computations that only read *)

Section Confined.

Context {A B : Type} (P : Event -> bool).

Lemma confined_ret (a : A) : confined P (ret a).
Proof.
  intros w. repeat split. exists []. now rewrite app_nil_r.
Qed.

Lemma confined_throw (e : exn) : confined P (@throw A e).
Proof.
  intros w. repeat split. exists []. now rewrite app_nil_r.
Qed.

Lemma confined_call (ev : Event) (answer : list Event -> Res A) :
  P ev = true -> confined P (call ev answer).
Proof.
  intros Hev w. repeat split. exists [ev]. cbn. now rewrite Hev.
Qed.

Lemma confined_bind (m : M A) (f : A -> M B) :
  confined P m -> (forall a, confined P (f a)) -> confined P (bind m f).
Proof.
  intros Hm Hf w. unfold bind.
  destruct (Hm w) as (Hh & Ho & evs & Hl & Hevs).
  destruct (m w) as [[a|e] w1]; cbn [snd] in *.
  - destruct (Hf a w1) as (Hh' & Ho' & evs' & Hl' & Hevs').
    repeat split; [congruence..|].
    exists (evs ++ evs')%list. split.
    + now rewrite Hl', Hl, app_assoc.
    + now rewrite forallb_app, Hevs, Hevs'.
  - repeat split; auto. exists evs. auto.
Qed.

Lemma confined_try_catch (m : M A) (h : exn -> M A) :
  confined P m -> (forall e, confined P (h e)) -> confined P (try_catch m h).
Proof.
  intros Hm Hh w. unfold try_catch.
  destruct (Hm w) as (Hhp & Ho & evs & Hl & Hevs).
  destruct (m w) as [[a|e] w1]; cbn [snd] in *.
  - repeat split; auto. exists evs. auto.
  - destruct (Hh e w1) as (Hh' & Ho' & evs' & Hl' & Hevs').
    repeat split; [congruence..|].
    exists (evs ++ evs')%list. split.
    + now rewrite Hl', Hl, app_assoc.
    + now rewrite forallb_app, Hevs, Hevs'.
Qed.

End Confined.

Lemma confined_findOne (P : Event -> bool) (hash : string) :
  P (EFindOne hash) = true -> confined P (OrderModel_findOne hash).
Proof.
  intros Hev w. repeat split. exists [EFindOne hash]. cbn. now rewrite Hev.
Qed.

(** Splits a computation along its branches. *)
Ltac confined_branches :=
  repeat first
    [ progress intros
    | apply confined_try_catch
    | apply confined_bind
    | apply confined_ret
    | apply confined_throw
    | apply confined_call; reflexivity
    | apply confined_findOne; reflexivity
    | match goal with
      | |- confined _ (if ?b then _ else _) => destruct b
      | |- confined _ (match ?x with _ => _ end) => destruct x
      end ].

Lemma confined_findOrderByHash (v : jsval) :
  confined is_lookup_or_network (findOrderByHash v).
Proof. unfold findOrderByHash. confined_branches. Qed.

Lemma confined_ensureFunds (adapters : Adapters) (d : Doc) :
  confined is_lookup_or_network (ensureFunds adapters d).
Proof.
  unfold ensureFunds, p2wdb_checkForSufficientFunds, wallet_getBalance.
  confined_branches.
Qed.

Lemma confined_takeOrder (adapters : Adapters) (orderCid : jsval) :
  confined is_lookup_or_network (takeOrder adapters orderCid).
Proof.
  unfold takeOrder, bchjs_getTxOut, wallet_generatePartialTx.
  confined_branches;
    first [ apply confined_findOrderByHash | apply confined_ensureFunds ].
Qed.

Lemma is_lookup_or_network_not_write (e : Event) :
  is_lookup_or_network e = true -> is_write e = false.
Proof. now destruct e. Qed.

(** * The claims *)

(** ** takeOrder *)

(** C1 (as amended).  For every persisted order whose [orderStatus] is a
    non-empty string other than 'posted' (in particular 'taken'), [takeOrder]
    on the order's hash fails with the error 'order already taken'; the only
    call it makes is the lookup in the store: no oracle call, no wallet call,
    and store and heap are left as they were. *)
Theorem takeOrder_rejects_taken (adapters : Adapters) (w : World) (d : Doc)
        (s : string) :
  persisted w d ->
  orderStatus (doc_order d) = Some s ->
  s <> "" ->
  s <> "posted" ->
  takeOrder adapters (VStr (p2wdbHash (doc_order d))) w
  = (Throw (Error "order already taken"),
     mkWorld (heap w) (orders w)
             (log w ++ [EFindOne (p2wdbHash (doc_order d))])).
Proof.
  intros [Hne Hd] Hs Hs0 Hsp. unfold takeOrder. rewrite try_catch_rethrow.
  rewrite (bind_Ok _ _ _ _ _ (findOrderByHash_found _ _ _ Hne Hd)).
  unfold status_value, strict_ne. rewrite Hs. cbn [truthy].
  rewrite (String_eqb_empty _ Hs0).
  rewrite bool_decide_eq_false_2 by congruence. reflexivity.
Qed.

(** The order of the scenario, already taken. *)
Lemma takeOrder_rejects_taken_witness :
  let A := Scenario.fixed Scenario.utxo_info (VBool true) 10000 None in
  let w := Scenario.holding "sell" (Some "taken") in
  let d := Scenario.doc "sell" (Some "taken") in
  persisted w d /\
  takeOrder A (VStr (p2wdbHash (doc_order d))) w
  = (Throw (Error "order already taken"),
     mkWorld (heap w) (orders w)
             (log w ++ [EFindOne (p2wdbHash (doc_order d))])).
Proof.
  intros A w d.
  assert (persisted w d) as Hp by (split; [discriminate | reflexivity]).
  split; [exact Hp|].
  apply (takeOrder_rejects_taken A w d "taken" Hp);
    [reflexivity | discriminate | discriminate].
Defined.

(** C1 (as stated) fails on a stored order whose [orderStatus] is the empty
    string: the field is present and differs from 'posted', yet the guard
    [orderInfo.orderStatus && ...] lets the order through, and [takeOrder]
    goes on to the oracle and the wallet. *)
Lemma takeOrder_empty_status_not_rejected :
  let A := Scenario.fixed Scenario.utxo_info (VBool true) 10000 None in
  let w := Scenario.holding "sell" (Some "") in
  let d := Scenario.doc "sell" (Some "") in
  persisted w d /\
  orderStatus (doc_order d) = Some "" /\
  "" <> "posted" /\
  fst (takeOrder A (VStr (p2wdbHash (doc_order d))) w)
  = Ok (VStr "0200abcd") /\
  fst (takeOrder A (VStr (p2wdbHash (doc_order d))) w)
  <> Throw (Error "order already taken") /\
  log (snd (takeOrder A (VStr (p2wdbHash (doc_order d))) w))
  = [EFindOne "zdpu1"; EGetTxOut (VStr "abc") (VNum 0);
     ECheckForSufficientFunds (VStr "L1wif"); EGetBalance;
     EGeneratePartialTx d].
Proof.
  cbv zeta. split; [split; [discriminate | reflexivity]|].
  split; [reflexivity|]. split; [discriminate|].
  split; [vm_compute; reflexivity|].
  split; [vm_compute; discriminate | vm_compute; reflexivity].
Qed.

(** C7 (as amended).  For every persisted order in state 'posted' whose
    backing UTXO the oracle reports as spent or unknown at take time
    ([getTxOut] answers [null]), [takeOrder] fails with an error whose message
    is 'UTXO does not exist. Aborting.'; the calls made are the lookup and the
    oracle query: neither the solvency check nor the construction of the
    partial transaction is reached. *)
Theorem takeOrder_stale_utxo (adapters : Adapters) (w : World) (d : Doc) :
  let hash := p2wdbHash (doc_order d) in
  let txid := VStr (utxoTxid (doc_order d)) in
  let vout := VNum (utxoVout (doc_order d)) in
  persisted w d ->
  orderStatus (doc_order d) = Some "posted" ->
  getTxOut adapters (log w ++ [EFindOne hash]) txid vout = Ok VNull ->
  takeOrder adapters (VStr hash) w
  = (Throw (Error "UTXO does not exist. Aborting."),
     mkWorld (heap w) (orders w)
             (log w ++ [EFindOne hash; EGetTxOut txid vout])).
Proof.
  intros hash txid vout Hp Hs Hnull. subst hash txid vout.
  rewrite (takeOrder_guard_passes adapters d w Hp (or_introl Hs)).
  cbv zeta. rewrite Hnull. reflexivity.
Qed.

(** The order of the scenario, posted, its UTXO spent in the meantime. *)
Lemma takeOrder_stale_utxo_witness :
  let A := Scenario.fixed VNull (VBool true) 10000 None in
  let w := Scenario.holding "sell" (Some "posted") in
  let d := Scenario.doc "sell" (Some "posted") in
  persisted w d /\
  takeOrder A (VStr "zdpu1") w
  = (Throw (Error "UTXO does not exist. Aborting."),
     mkWorld (heap w) (orders w)
             (log w ++ [EFindOne "zdpu1"; EGetTxOut (VStr "abc") (VNum 0)])).
Proof.
  intros A w d.
  assert (persisted w d) as Hp by (split; [discriminate | reflexivity]).
  split; [exact Hp|].
  apply (takeOrder_stale_utxo A w d Hp); reflexivity.
Defined.

(** C7 (as stated) fails on the message: the error raised for a spent UTXO
    does not read 'UTXO does not exist'. *)
Lemma stale_utxo_message_differs :
  let A := Scenario.fixed VNull (VBool true) 10000 None in
  let w := Scenario.holding "sell" (Some "posted") in
  let d := Scenario.doc "sell" (Some "posted") in
  persisted w d /\
  orderStatus (doc_order d) = Some "posted" /\
  getTxOut A (log w ++ [EFindOne "zdpu1"]) (VStr "abc") (VNum 0) = Ok VNull /\
  exists e,
    fst (takeOrder A (VStr (p2wdbHash (doc_order d))) w) = Throw e /\
    message e = "UTXO does not exist. Aborting." /\
    message e <> "UTXO does not exist".
Proof.
  cbv zeta. split; [split; [discriminate | reflexivity]|].
  split; [reflexivity|]. split; [reflexivity|].
  exists (Error "UTXO does not exist. Aborting.").
  split; [vm_compute; reflexivity|]. split; [reflexivity | discriminate].
Qed.

(** C5.  [takeOrder] never writes to the Order Store: on every invocation,
    whatever the collaborators answer and whether it succeeds or fails, the
    store after the call is the store before it (so no order becomes
    'taken'), and every call it makes is the lookup, an oracle query or a
    wallet call of [is_lookup_or_network]: no [save], no broadcast. *)
Theorem takeOrder_never_writes (adapters : Adapters) (orderCid : jsval)
        (w : World) :
  let w' := snd (takeOrder adapters orderCid w) in
  orders w' = orders w /\
  (forall hash, orderStatus <$> (doc_order <$> orders w' !! hash)
                = orderStatus <$> (doc_order <$> orders w !! hash)) /\
  exists evs,
    log w' = (log w ++ evs)%list /\
    forallb is_lookup_or_network evs = true /\
    existsb is_write evs = false.
Proof.
  destruct (confined_takeOrder adapters orderCid w)
    as (_ & Ho & evs & Hl & Hevs).
  cbv zeta. split; [exact Ho|]. split; [intros hash; now rewrite Ho|].
  exists evs. repeat split; auto.
  clear Hl. induction evs as [|e evs IH]; [reflexivity|].
  cbn in *. apply andb_true_iff in Hevs as [He Hevs].
  now rewrite (is_lookup_or_network_not_write e He), IH.
Qed.

(** ** ensureFunds *)




(** C6 (as amended).  For every order whose [buyOrSell] contains 'buy' and
    not 'sell', once the P2WDB funds check has passed, [ensureFunds] fails
    with the error 'Buy orders are not supported yet.', whatever the wallet
    holds: the balance is not even read. *)
Theorem ensureFunds_buy_unsupported (adapters : Adapters) (w : World) (d : Doc)
        (v : jsval) :
  let wif := privateKey adapters in
  includes (buyOrSell (doc_order d)) "buy" = true ->
  includes (buyOrSell (doc_order d)) "sell" = false ->
  checkForSufficientFunds adapters (log w) wif = Ok v ->
  truthy v = true ->
  ensureFunds adapters d w
  = (Throw (Error "Buy orders are not supported yet."),
     mkWorld (heap w) (orders w) (log w ++ [ECheckForSufficientFunds wif])).
Proof.
  intros wif _ Hsell Hcan Hv.
  exact (ensureFunds_not_sell adapters d w v Hcan Hv Hsell).
Qed.

(** The scenario, as a buy order. *)
Lemma ensureFunds_buy_unsupported_witness :
  let A := Scenario.fixed Scenario.utxo_info (VBool true) 10000 None in
  let w := Scenario.holding "buy" (Some "posted") in
  let d := Scenario.doc "buy" (Some "posted") in
  ensureFunds A d w
  = (Throw (Error "Buy orders are not supported yet."),
     mkWorld (heap w) (orders w)
             (log w ++ [ECheckForSufficientFunds (privateKey A)])).
Proof.
  intros A w d.
  apply (ensureFunds_buy_unsupported A w d (VBool true)); reflexivity.
Defined.

(** C6 (as stated) fails when the P2WDB funds check does not pass: a buy
    order is then rejected for the missing P2WDB funds, not as unsupported. *)
Lemma ensureFunds_buy_without_p2wdb_funds :
  let A := Scenario.fixed Scenario.utxo_info (VBool false) 10000 None in
  let w := Scenario.holding "buy" (Some "posted") in
  let d := Scenario.doc "buy" (Some "posted") in
  includes (buyOrSell (doc_order d)) "buy" = true /\
  includes (buyOrSell (doc_order d)) "sell" = false /\
  fst (ensureFunds A d w)
  = Throw (Error "App wallet does not have funds for writing to the P2WDB.") /\
  fst (ensureFunds A d w) <> Throw (Error "Buy orders are not supported yet.") /\
  fst (ensureFunds A d w) <> Throw (Error "Buy orders are not supported yet").
Proof.
  cbv zeta. repeat split; try reflexivity; vm_compute; discriminate.
Qed.

(** C9.  [ensureFunds] dispatches on substring containment.  Once the P2WDB
    funds check has passed: an order whose [buyOrSell] contains 'sell'
    anywhere takes the sell side (the balance is read and the outcome is that
    of the solvency test [short_of_funds]); an order whose [buyOrSell] does not contain
    'sell', whatever its value, fails with 'Buy orders are not supported
    yet.' without the balance being read. *)
Theorem ensureFunds_dispatch (adapters : Adapters) (w : World) (d : Doc)
        (v : jsval) :
  let wif := privateKey adapters in
  let side := buyOrSell (doc_order d) in
  let r := ensureFunds adapters d w in
  checkForSufficientFunds adapters (log w) wif = Ok v ->
  truthy v = true ->
  (contains side "sell" ->
   log (snd r) = (log w ++ [ECheckForSufficientFunds wif; EGetBalance])%list /\
   fst r = match getBalance adapters
                   (log w ++ [ECheckForSufficientFunds wif]) with
           | Ok balance =>
               if short_of_funds (doc_order d) balance
               then Throw (Error "App wallet does not control enough BCH to purchase the tokens.")
               else Ok true
           | Throw e => Throw e
           end) /\
  (~ contains side "sell" ->
   log (snd r) = (log w ++ [ECheckForSufficientFunds wif])%list /\
   fst r = Throw (Error "Buy orders are not supported yet.")).
Proof.
  intros wif side r Hcan Hv. subst r. split.
  - intros Hsell%includes_contains.
    rewrite (ensureFunds_sell adapters d w v Hcan Hv Hsell). now split.
  - intros Hsell%includes_not_contains.
    rewrite (ensureFunds_not_sell adapters d w v Hcan Hv Hsell). now split.
Qed.

(** 'buysell' goes to the sell side (and fails on a balance of 4000); 'hodl'
    is rejected as a buy order. *)
Lemma ensureFunds_dispatch_witness :
  let A := Scenario.fixed Scenario.utxo_info (VBool true) 4000 None in
  let w := Scenario.holding "buysell" None in
  let d := Scenario.doc "buysell" None in
  let w2 := Scenario.holding "hodl" None in
  let d2 := Scenario.doc "hodl" None in
  contains "buysell" "sell" /\
  ~ contains "hodl" "sell" /\
  fst (ensureFunds A d w)
  = Throw (Error "App wallet does not control enough BCH to purchase the tokens.") /\
  log (snd (ensureFunds A d w))
  = [ECheckForSufficientFunds (VStr "L1wif"); EGetBalance] /\
  fst (ensureFunds A d2 w2) = Throw (Error "Buy orders are not supported yet.") /\
  log (snd (ensureFunds A d2 w2)) = [ECheckForSufficientFunds (VStr "L1wif")].
Proof.
  intros A w d w2 d2.
  assert (contains "buysell" "sell") as Hin
      by (exists "buy", ""; reflexivity).
  assert (~ contains "hodl" "sell") as Hout
      by (apply includes_not_contains; reflexivity).
  destruct (ensureFunds_dispatch A w d (VBool true) eq_refl eq_refl)
    as [Hsell _].
  destruct (ensureFunds_dispatch A w2 d2 (VBool true) eq_refl eq_refl)
    as [_ Hbuy].
  destruct (Hsell Hin) as [Hl Hr]. destruct (Hbuy Hout) as [Hl2 Hr2].
  repeat split; assumption.
Defined.

(** ** createOrder *)

(** C3.  For every payload whose backing UTXO the oracle reports as spent or
    unknown ([getTxOut] answers [null]), [createOrder] returns [false]
    without raising, and persists nothing: the store is the one before the
    call and the only call made is the oracle query. *)
Theorem createOrder_spent_utxo (adapters : Adapters) (w : World)
        (orderObj data txid vout : jsval) :
  read_prop (heap w) orderObj "data" = Ok data ->
  read_prop (heap w) data "utxoTxid" = Ok txid ->
  read_prop (heap w) data "utxoVout" = Ok vout ->
  getTxOut adapters (log w) txid vout = Ok VNull ->
  createOrder adapters orderObj w
  = (Ok false,
     mkWorld (heap w) (orders w) (log w ++ [EGetTxOut txid vout])).
Proof.
  intros Hdata Htxid Hvout Hnull. unfold createOrder.
  rewrite try_catch_rethrow.
  unfold bind, get, bchjs_getTxOut, call.
  rewrite Hdata, Htxid, Hvout, Hnull. reflexivity.
Qed.

(** The payload of the scenario, its UTXO already spent. *)
Lemma createOrder_spent_utxo_witness :
  let A := Scenario.fixed VNull (VBool true) 10000 None in
  createOrder A Scenario.payload Scenario.fresh
  = (Ok false,
     mkWorld Scenario.payload_heap ∅ [EGetTxOut (VStr "abc") (VNum 0)]).
Proof.
  intros A.
  apply (createOrder_spent_utxo A Scenario.fresh Scenario.payload
           (VRef 2%positive) (VStr "abc") (VNum 0));
    vm_compute; reflexivity.
Defined.

(** C4 (as amended).  For every payload whose backing UTXO the oracle reports
    as live and which the validator accepts once its status is set,
    [createOrder], provided the store accepts the write, returns [true] and
    persists exactly one order record: the store after the call is the store
    before it with the validated order added under its hash, [save] is called
    once, and the record's [orderStatus] is 'posted'. *)
Theorem createOrder_live_utxo (adapters : Adapters) (w : World)
        (orderObj txid vout utxoStatus : jsval) (ld : loc) (entity : Order) :
  let l1 := (log w ++ [EGetTxOut txid vout])%list in
  read_prop (heap w) orderObj "data" = Ok (VRef ld) ->
  read_prop (heap w) (VRef ld) "utxoTxid" = Ok txid ->
  read_prop (heap w) (VRef ld) "utxoVout" = Ok vout ->
  getTxOut adapters (log w) txid vout = Ok utxoStatus ->
  utxoStatus <> VNull ->
  validate (mark_posted (heap w) ld) orderObj = Ok entity ->
  storage_fault adapters l1 entity = None ->
  createOrder adapters orderObj w
  = (Ok true,
     mkWorld (mark_posted (heap w) ld)
             (<[p2wdbHash entity := mkDoc (object_id adapters l1) entity]>
                (orders w))
             (log w ++ [EGetTxOut txid vout; ESave entity])) /\
  orderStatus entity = Some "posted".
Proof.
  intros l1 Hdata Htxid Hvout Hlive Hnn Hval Hfault. split.
  - rewrite (createOrder_steps adapters _ _ _ _ _ Hdata Htxid Hvout).
    cbv zeta. fold l1. rewrite Hlive.
    replace (is_null utxoStatus) with false by now destruct utxoStatus.
    now rewrite Hval, Hfault.
  - exact (validate_posted _ _ _ _ Hdata Hval).
Qed.

(** The payload of the scenario, its UTXO live. *)
Lemma createOrder_live_utxo_witness :
  let A := Scenario.fixed Scenario.utxo_info (VBool true) 10000 None in
  let entity := Scenario.order "sell" (Some "posted") in
  createOrder A Scenario.payload Scenario.fresh
  = (Ok true,
     mkWorld (mark_posted Scenario.payload_heap 2%positive)
             (<["zdpu1" := mkDoc "6541" entity]> ∅)
             [EGetTxOut (VStr "abc") (VNum 0); ESave entity]) /\
  orderStatus entity = Some "posted".
Proof.
  intros A entity.
  apply (createOrder_live_utxo A Scenario.fresh Scenario.payload
           (VStr "abc") (VNum 0) Scenario.utxo_info 2%positive entity);
    try discriminate; vm_compute; reflexivity.
Defined.

(** C4 (as stated) fails when [save] rejects: the payload is valid and its
    UTXO live, yet [createOrder] re-raises the store's error and nothing is
    persisted. *)
Lemma createOrder_storage_fault :
  let fault := Some (Error "storage unavailable") in
  let A := Scenario.fixed Scenario.utxo_info (VBool true) 10000 fault in
  let r := createOrder A Scenario.payload Scenario.fresh in
  getTxOut A (log Scenario.fresh) (VStr "abc") (VNum 0)
  = Ok Scenario.utxo_info /\
  Scenario.utxo_info <> VNull /\
  validate (mark_posted Scenario.payload_heap 2%positive) Scenario.payload
  = Ok (Scenario.order "sell" (Some "posted")) /\
  fst r = Throw (Error "storage unavailable") /\
  fst r <> Ok true /\
  orders (snd r) = ∅.
Proof.
  cbv zeta. split; [reflexivity|]. split; [discriminate|].
  split; [vm_compute; reflexivity|]. split; [vm_compute; reflexivity|].
  split; [vm_compute; discriminate | vm_compute; reflexivity].
Qed.

(** C8.  Round trip: whenever [createOrder] has persisted an order,
    [findOrderByHash] on the hash assigned to the saved order finds a record
    whose fields [utxoTxid], [utxoVout], [buyOrSell], [numTokens],
    [rateInSats] and [orderStatus] are those that were saved; the store's
    own metadata ([doc_id]) is not part of the comparison. *)
Theorem createOrder_findOrderByHash (adapters : Adapters) (w w' : World)
        (orderObj : jsval) :
  createOrder adapters orderObj w = (Ok true, w') ->
  exists saved found,
    last (log w') = Some (ESave saved) /\
    fst (findOrderByHash (VStr (p2wdbHash saved)) w') = Ok found /\
    utxoTxid (doc_order found) = utxoTxid saved /\
    utxoVout (doc_order found) = utxoVout saved /\
    buyOrSell (doc_order found) = buyOrSell saved /\
    numTokens (doc_order found) = numTokens saved /\
    rateInSats (doc_order found) = rateInSats saved /\
    orderStatus (doc_order found) = orderStatus saved.
Proof.
  intros H.
  destruct (createOrder_true_inv adapters _ _ _ H)
    as (ld & txid & vout & saved & Hdata & Hval & ->).
  destruct (validate_Ok_inv _ _ _ Hval) as (_ & _ & Hne & _).
  exists saved, (mkDoc (object_id adapters (log w ++ [EGetTxOut txid vout]))
                       saved).
  split.
  - cbn [log].
    change [EGetTxOut txid vout; ESave saved]
      with ([EGetTxOut txid vout] ++ [ESave saved])%list.
    now rewrite app_assoc, last_snoc.
  - rewrite (findOrderByHash_found _ _ _ Hne (lookup_insert_eq _ _ _)).
    cbn. repeat split.
Qed.

(** The payload of the scenario, created and then looked up. *)
Lemma createOrder_findOrderByHash_witness :
  let A := Scenario.fixed Scenario.utxo_info (VBool true) 10000 None in
  let w' := snd (createOrder A Scenario.payload Scenario.fresh) in
  createOrder A Scenario.payload Scenario.fresh = (Ok true, w') /\
  exists saved found,
    last (log w') = Some (ESave saved) /\
    fst (findOrderByHash (VStr (p2wdbHash saved)) w') = Ok found /\
    utxoTxid (doc_order found) = utxoTxid saved /\
    utxoVout (doc_order found) = utxoVout saved /\
    buyOrSell (doc_order found) = buyOrSell saved /\
    numTokens (doc_order found) = numTokens saved /\
    rateInSats (doc_order found) = rateInSats saved /\
    orderStatus (doc_order found) = orderStatus saved.
Proof.
  intros A w'.
  assert (createOrder A Scenario.payload Scenario.fresh = (Ok true, w'))
    as Hrun by (vm_compute; reflexivity).
  split; [exact Hrun|].
  exact (createOrder_findOrderByHash A Scenario.fresh w' Scenario.payload Hrun).
Defined.

(** C10.  [createOrder] assigns to its argument in place.  On a payload whose
    [data] is an object: when the oracle reports the UTXO as live, the heap
    after the call is the heap before it with [data.orderStatus] set to
    'posted', whatever happens next (validation or persistence may fail), so
    the caller reads the status through its own reference; when the oracle
    answers [null], the heap is left as it was. *)
Theorem createOrder_marks_payload (adapters : Adapters) (w : World)
        (orderObj txid vout : jsval) (ld : loc) :
  let w' := snd (createOrder adapters orderObj w) in
  read_prop (heap w) orderObj "data" = Ok (VRef ld) ->
  read_prop (heap w) (VRef ld) "utxoTxid" = Ok txid ->
  read_prop (heap w) (VRef ld) "utxoVout" = Ok vout ->
  (forall utxoStatus,
      getTxOut adapters (log w) txid vout = Ok utxoStatus ->
      utxoStatus <> VNull ->
      heap w' = mark_posted (heap w) ld /\
      read_prop (heap w') orderObj "data" = Ok (VRef ld) /\
      read_prop (heap w') (VRef ld) "orderStatus" = Ok (VStr "posted")) /\
  (getTxOut adapters (log w) txid vout = Ok VNull -> heap w' = heap w).
Proof.
  intros w' Hdata Htxid Hvout. subst w'.
  rewrite (createOrder_steps adapters _ _ _ _ _ Hdata Htxid Hvout).
  cbv zeta. split.
  - intros u Hlive Hnn. rewrite Hlive.
    replace (is_null u) with false by now destruct u.
    assert (forall r : Res bool * World,
               heap (snd r) = mark_posted (heap w) ld ->
               heap (snd r) = mark_posted (heap w) ld /\
               read_prop (heap (snd r)) orderObj "data" = Ok (VRef ld) /\
               read_prop (heap (snd r)) (VRef ld) "orderStatus"
               = Ok (VStr "posted")) as Hseen.
    { intros r ->. split; [reflexivity|]. split.
      - now rewrite read_prop_mark_posted by discriminate.
      - apply read_prop_posted. }
    apply Hseen.
    destruct (validate _ orderObj) as [entity|e]; [|reflexivity].
    now destruct (storage_fault adapters _ entity).
  - intros ->. reflexivity.
Qed.

(** The payload of the scenario with a failing store: the status is set all
    the same. *)
Lemma createOrder_marks_payload_witness :
  let fault := Some (Error "storage unavailable") in
  let A := Scenario.fixed Scenario.utxo_info (VBool true) 10000 fault in
  let r := createOrder A Scenario.payload Scenario.fresh in
  fst r = Throw (Error "storage unavailable") /\
  heap (snd r) = mark_posted Scenario.payload_heap 2%positive /\
  read_prop (heap (snd r)) Scenario.payload "data" = Ok (VRef 2%positive) /\
  read_prop (heap (snd r)) (VRef 2%positive) "orderStatus"
  = Ok (VStr "posted").
Proof.
  intros fault A r. split; [vm_compute; reflexivity|].
  destruct (createOrder_marks_payload A Scenario.fresh Scenario.payload
              (VStr "abc") (VNum 0) 2%positive eq_refl eq_refl eq_refl)
    as [Hlive _].
  exact (Hlive Scenario.utxo_info eq_refl ltac:(discriminate)).
Defined.

(** * Further properties of the use cases *)

(** ** Each method, outcome by outcome *)

Lemma findOrderByHash_eq (v : jsval) (w : World) :
  findOrderByHash v w
  = match v with
    | VStr hash =>
        if String.eqb hash ""
        then (Throw (Error "p2wdbHash must be a string"), w)
        else
          (match orders w !! hash with
           | Some d => Ok d
           | None => Throw (Error "order not found")
           end,
           mkWorld (heap w) (orders w) (log w ++ [EFindOne hash]))
    | _ => (Throw (Error "p2wdbHash must be a string"), w)
    end.
Proof.
  unfold findOrderByHash. rewrite try_catch_rethrow.
  destruct v as [| | | |hash|]; try reflexivity.
  cbn [typeof truthy]. change (String.eqb "string" "string") with true.
  cbn [negb orb]. destruct (String.eqb hash ""); cbn [negb]; [reflexivity|].
  unfold bind, OrderModel_findOne. now destruct (orders w !! hash).
Qed.

Section Outcomes.

Variable adapters : Adapters.

Lemma ensureFunds_eq (d : Doc) (w : World) :
  let wif := privateKey adapters in
  let l1 := (log w ++ [ECheckForSufficientFunds wif])%list in
  ensureFunds adapters d w
  = match checkForSufficientFunds adapters (log w) wif with
    | Throw e => (Throw e, mkWorld (heap w) (orders w) l1)
    | Ok v =>
        if truthy v
        then
          if includes (buyOrSell (doc_order d)) "sell"
          then
            (match getBalance adapters l1 with
             | Ok balance =>
                 if short_of_funds (doc_order d) balance
                 then Throw (Error "App wallet does not control enough BCH to purchase the tokens.")
                 else Ok true
             | Throw e => Throw e
             end,
             mkWorld (heap w) (orders w)
                     (log w ++ [ECheckForSufficientFunds wif; EGetBalance]))
          else
            (Throw (Error "Buy orders are not supported yet."),
             mkWorld (heap w) (orders w) l1)
        else
          (Throw (Error "App wallet does not have funds for writing to the P2WDB."),
           mkWorld (heap w) (orders w) l1)
    end.
Proof.
  intros wif l1.
  destruct (checkForSufficientFunds adapters (log w) wif) as [v|e] eqn:Hcan.
  - destruct (truthy v) eqn:Hv.
    + destruct (includes (buyOrSell (doc_order d)) "sell") eqn:Hsell.
      * exact (ensureFunds_sell adapters d w v Hcan Hv Hsell).
      * exact (ensureFunds_not_sell adapters d w v Hcan Hv Hsell).
    + exact (ensureFunds_refused adapters d w v Hcan Hv).
  - unfold ensureFunds. rewrite try_catch_rethrow.
    unfold bind, p2wdb_checkForSufficientFunds, call. fold wif.
    now rewrite Hcan.
Qed.

Lemma takeOrder_eq (orderCid : jsval) (w : World) :
  takeOrder adapters orderCid w
  = match findOrderByHash orderCid w with
    | (Throw e, w1) => (Throw e, w1)
    | (Ok d, w1) =>
        let txid := VStr (utxoTxid (doc_order d)) in
        let vout := VNum (utxoVout (doc_order d)) in
        let w2 := mkWorld (heap w1) (orders w1)
                          (log w1 ++ [EGetTxOut txid vout]) in
        if already_taken (doc_order d)
        then (Throw (Error "order already taken"), w1)
        else
          match getTxOut adapters (log w1) txid vout with
          | Throw e => (Throw e, w2)
          | Ok utxoStatus =>
              if is_null utxoStatus
              then (Throw (Error "UTXO does not exist. Aborting."), w2)
              else
                match ensureFunds adapters d w2 with
                | (Throw e, w3) => (Throw e, w3)
                | (Ok _, w3) => wallet_generatePartialTx adapters d w3
                end
          end
    end.
Proof.
  unfold takeOrder. rewrite try_catch_rethrow. unfold bind at 1.
  destruct (findOrderByHash orderCid w) as [[d|e] w1]; [|reflexivity].
  fold (already_taken (doc_order d)).
  destruct (already_taken (doc_order d)); [reflexivity|].
  cbv zeta. unfold bind at 1. unfold bchjs_getTxOut, call.
  destruct (getTxOut adapters (log w1) _ _) as [u|e]; [|reflexivity].
  destruct (is_null u); [reflexivity|].
  unfold bind, ret.
  destruct (ensureFunds adapters d _) as [[b|e] w3]; [|reflexivity].
  now destruct (wallet_generatePartialTx adapters d w3) as [[x|e] w4].
Qed.

End Outcomes.

(** ** findOrderByHash *)

(** X1.  [findOrderByHash] returns a record exactly when its argument is a
    non-empty string under which the store holds that record; the record is
    returned as stored and the only call made is the lookup. *)
Theorem findOrderByHash_Ok_iff (v : jsval) (w w' : World) (d : Doc) :
  findOrderByHash v w = (Ok d, w') <->
  exists hash,
    v = VStr hash /\ hash <> "" /\ orders w !! hash = Some d /\
    w' = mkWorld (heap w) (orders w) (log w ++ [EFindOne hash]).
Proof.
  rewrite findOrderByHash_eq. split.
  - destruct v as [| | | |hash|]; try discriminate.
    destruct (String.eqb hash "") eqn:Hh; [discriminate|].
    apply String.eqb_neq in Hh.
    destruct (orders w !! hash) as [d'|] eqn:Hd; [|discriminate].
    intros [= -> <-]. exists hash. auto.
  - intros (hash & -> & Hh & Hd & ->).
    now rewrite (String_eqb_empty _ Hh), Hd.
Qed.

(** A lookup of the order of the scenario. *)
Lemma findOrderByHash_Ok_iff_witness :
  let w := Scenario.holding "sell" (Some "posted") in
  findOrderByHash (VStr "zdpu1") w
  = (Ok (Scenario.doc "sell" (Some "posted")),
     mkWorld (heap w) (orders w) (log w ++ [EFindOne "zdpu1"])).
Proof.
  intros w.
  apply (proj2 (findOrderByHash_Ok_iff (VStr "zdpu1") w _ _)).
  exists "zdpu1". repeat split; try reflexivity. discriminate.
Defined.

(** X2.  [findOrderByHash] fails in two ways only.  On an argument that is
    not a non-empty string it raises 'p2wdbHash must be a string' and the
    store is not consulted (the world is untouched); on a non-empty string
    with no record it raises 'order not found' after one lookup. *)
Theorem findOrderByHash_failures (v : jsval) (w : World) :
  ((forall hash, v = VStr hash -> hash = "") ->
   findOrderByHash v w = (Throw (Error "p2wdbHash must be a string"), w)) /\
  (forall hash,
      v = VStr hash -> hash <> "" -> orders w !! hash = None ->
      findOrderByHash v w
      = (Throw (Error "order not found"),
         mkWorld (heap w) (orders w) (log w ++ [EFindOne hash]))) /\
  (forall e w',
      findOrderByHash v w = (Throw e, w') ->
      e = Error "p2wdbHash must be a string"
      \/ e = Error "order not found").
Proof.
  rewrite findOrderByHash_eq. repeat split.
  - intros Hv. destruct v as [| | | |hash|]; try reflexivity.
    now rewrite (Hv hash eq_refl).
  - intros hash -> Hh Hd. now rewrite (String_eqb_empty _ Hh), Hd.
  - intros e w'. destruct v as [| | | |hash|]; try (intros [= <- _]; now left).
    destruct (String.eqb hash ""); [intros [= <- _]; now left|].
    destruct (orders w !! hash); [discriminate|].
    intros [= <- _]. now right.
Qed.

(** A number for a hash, and a hash nobody stored. *)
Lemma findOrderByHash_failures_witness :
  let w := Scenario.holding "sell" (Some "posted") in
  findOrderByHash (VNum 7) w
  = (Throw (Error "p2wdbHash must be a string"), w) /\
  findOrderByHash (VStr "zdpu2") w
  = (Throw (Error "order not found"),
     mkWorld (heap w) (orders w) (log w ++ [EFindOne "zdpu2"])).
Proof.
  intros w. split.
  - apply (proj1 (findOrderByHash_failures (VNum 7) w)). discriminate.
  - apply (proj1 (proj2 (findOrderByHash_failures (VStr "zdpu2") w)) "zdpu2");
      [reflexivity | discriminate | reflexivity].
Defined.

(** ** takeOrder *)

(** X3.  When the lookup fails, [takeOrder] fails with the very error of
    [findOrderByHash] and stops there: neither the oracle nor the wallet is
    called. *)
Theorem takeOrder_lookup_failure (adapters : Adapters) (orderCid : jsval)
        (w w1 : World) (e : exn) :
  findOrderByHash orderCid w = (Throw e, w1) ->
  takeOrder adapters orderCid w = (Throw e, w1) /\
  exists evs,
    log w1 = (log w ++ evs)%list /\
    existsb is_oracle_or_wallet evs = false.
Proof.
  intros Hf. split.
  - now rewrite takeOrder_eq, Hf.
  - rewrite findOrderByHash_eq in Hf.
    destruct orderCid as [| | | |hash|];
      try (injection Hf as _ <-; exists []; now rewrite app_nil_r).
    destruct (String.eqb hash "");
      [injection Hf as _ <-; exists []; now rewrite app_nil_r|].
    injection Hf as _ <-. now exists [EFindOne hash].
Qed.

(** Taking an order nobody stored. *)
Lemma takeOrder_lookup_failure_witness :
  let A := Scenario.fixed Scenario.utxo_info (VBool true) 10000 None in
  let w := Scenario.holding "sell" (Some "posted") in
  let w1 := mkWorld (heap w) (orders w) (log w ++ [EFindOne "zdpu2"]) in
  takeOrder A (VStr "zdpu2") w = (Throw (Error "order not found"), w1) /\
  exists evs,
    log w1 = (log w ++ evs)%list /\
    existsb is_oracle_or_wallet evs = false.
Proof.
  intros A w w1.
  apply (takeOrder_lookup_failure A (VStr "zdpu2") w w1).
  vm_compute. reflexivity.
Defined.

(** X4.  The successful take.  For a stored order that passes the status
    guard, with a live UTXO, a passing P2WDB check, a sell side, amounts
    within the safe integers and a balance of at least
    [numTokens * rateInSats + 5000], [takeOrder] returns what
    [generatePartialTx] answers for the stored record, after exactly five
    calls in this order: lookup, oracle, P2WDB check, balance, partial
    transaction. *)
Theorem takeOrder_success (adapters : Adapters) (w : World) (hash : string)
        (d : Doc) (utxoStatus v : jsval) (balance : Z) :
  let wif := privateKey adapters in
  let txid := VStr (utxoTxid (doc_order d)) in
  let vout := VNum (utxoVout (doc_order d)) in
  let l1 := (log w ++ [EFindOne hash])%list in
  let l2 := (l1 ++ [EGetTxOut txid vout])%list in
  let l3 := (l2 ++ [ECheckForSufficientFunds wif])%list in
  let l4 := (l3 ++ [EGetBalance])%list in
  hash <> "" ->
  orders w !! hash = Some d ->
  already_taken (doc_order d) = false ->
  getTxOut adapters l1 txid vout = Ok utxoStatus ->
  utxoStatus <> VNull ->
  checkForSufficientFunds adapters l2 wif = Ok v ->
  truthy v = true ->
  includes (buyOrSell (doc_order d)) "sell" = true ->
  getBalance adapters l3 = Ok balance ->
  within_safe_integers (doc_order d) ->
  safe_integer balance ->
  numTokens (doc_order d) * rateInSats (doc_order d) + 5000 <= balance ->
  takeOrder adapters (VStr hash) w
  = (generatePartialTx adapters l4 d,
     mkWorld (heap w) (orders w) (l4 ++ [EGeneratePartialTx d])).
Proof.
  intros wif txid vout l1 l2 l3 l4 Hh Hd Hg Hu Hnn Hcan Hv Hsell Hbal
         Hsafe Hsafeb Hle.
  rewrite takeOrder_eq, findOrderByHash_eq, (String_eqb_empty _ Hh), Hd.
  cbv zeta. rewrite Hg. cbn [log heap orders]. fold txid vout l1.
  rewrite Hu. replace (is_null utxoStatus) with false
    by now destruct utxoStatus.
  rewrite ensureFunds_eq. cbv zeta. cbn [log heap orders].
  fold l2 wif. rewrite Hcan, Hv, Hsell. fold l3. rewrite Hbal.
  rewrite (short_of_funds_exact _ _ Hsafe Hsafeb).
  destruct (Z.ltb_spec balance
              (numTokens (doc_order d) * rateInSats (doc_order d) + 5000));
    [lia|].
  unfold wallet_generatePartialTx, call. cbn [log heap orders].
  subst l4 l3. now rewrite <- !app_assoc.
Qed.

(** The scenario: the posted order is taken. *)
Lemma takeOrder_success_witness :
  let A := Scenario.fixed Scenario.utxo_info (VBool true) 10000 None in
  let w := Scenario.holding "sell" (Some "posted") in
  let d := Scenario.doc "sell" (Some "posted") in
  takeOrder A (VStr "zdpu1") w
  = (Ok (VStr "0200abcd"),
     mkWorld (heap w) (orders w)
       [EFindOne "zdpu1"; EGetTxOut (VStr "abc") (VNum 0);
        ECheckForSufficientFunds (VStr "L1wif"); EGetBalance;
        EGeneratePartialTx d]).
Proof.
  intros A w d.
  apply (takeOrder_success A w "zdpu1" d Scenario.utxo_info (VBool true)
           10000);
    try discriminate; try reflexivity; vm_compute; intuition discriminate.
Defined.

(** X5.  [takeOrder] hands out a partial transaction only for an order it
    found, that passes the status guard, whose UTXO the oracle reported, for
    which the P2WDB check passed, whose side contains 'sell' and for which
    the solvency test [short_of_funds] did not fire: within the safe
    integers, the balance read covers [numTokens * rateInSats + 5000].  The
    value returned is the answer of [generatePartialTx] for the stored
    record, and store and heap are as before. *)
Theorem takeOrder_Ok_inv (adapters : Adapters) (orderCid x : jsval)
        (w w' : World) :
  takeOrder adapters orderCid w = (Ok x, w') ->
  exists hash d utxoStatus v balance,
    let wif := privateKey adapters in
    let txid := VStr (utxoTxid (doc_order d)) in
    let vout := VNum (utxoVout (doc_order d)) in
    let l1 := (log w ++ [EFindOne hash])%list in
    let l2 := (l1 ++ [EGetTxOut txid vout])%list in
    let l3 := (l2 ++ [ECheckForSufficientFunds wif])%list in
    let l4 := (l3 ++ [EGetBalance])%list in
    orderCid = VStr hash /\ hash <> "" /\
    orders w !! hash = Some d /\
    already_taken (doc_order d) = false /\
    getTxOut adapters l1 txid vout = Ok utxoStatus /\
    utxoStatus <> VNull /\
    checkForSufficientFunds adapters l2 wif = Ok v /\
    truthy v = true /\
    contains (buyOrSell (doc_order d)) "sell" /\
    getBalance adapters l3 = Ok balance /\
    short_of_funds (doc_order d) balance = false /\
    (within_safe_integers (doc_order d) -> safe_integer balance ->
     numTokens (doc_order d) * rateInSats (doc_order d) + 5000 <= balance) /\
    generatePartialTx adapters l4 d = Ok x /\
    w' = mkWorld (heap w) (orders w) (l4 ++ [EGeneratePartialTx d]).
Proof.
  rewrite takeOrder_eq, findOrderByHash_eq.
  destruct orderCid as [| | | |hash|]; try discriminate.
  destruct (String.eqb hash "") eqn:Hh; [discriminate|].
  apply String.eqb_neq in Hh.
  destruct (orders w !! hash) as [d|] eqn:Hd; [|discriminate].
  cbv zeta. cbn [log heap orders].
  destruct (already_taken (doc_order d)) eqn:Hg; [discriminate|].
  destruct (getTxOut adapters _ _ _) as [u|e] eqn:Hu; [|discriminate].
  destruct (is_null u) eqn:Hnull; [discriminate|].
  rewrite ensureFunds_eq. cbv zeta. cbn [log heap orders].
  destruct (checkForSufficientFunds adapters _ _) as [v|e] eqn:Hcan;
    [|discriminate].
  destruct (truthy v) eqn:Hv; [|discriminate].
  destruct (includes (buyOrSell (doc_order d)) "sell") eqn:Hsell;
    [|discriminate].
  destruct (getBalance adapters _) as [balance|e] eqn:Hbal; [|discriminate].
  destruct (short_of_funds (doc_order d) balance) eqn:Hshort; [discriminate|].
  unfold wallet_generatePartialTx, call. cbn [log heap orders].
  intros [= Hx <-].
  exists hash, d, u, v, balance. cbv zeta.
  rewrite <- ?app_assoc in *. cbn [app] in *.
  repeat split; auto.
  - intros ->. discriminate.
  - now apply includes_contains.
  - intros Hsafe Hsafeb.
    rewrite (short_of_funds_exact _ _ Hsafe Hsafeb) in Hshort.
    now apply Z.ltb_ge in Hshort.
Qed.

(** The scenario, read backwards. *)
Lemma takeOrder_Ok_inv_witness :
  exists hash d utxoStatus v balance,
    let A := Scenario.fixed Scenario.utxo_info (VBool true) 10000 None in
    let w := Scenario.holding "sell" (Some "posted") in
    let wif := privateKey A in
    let txid := VStr (utxoTxid (doc_order d)) in
    let vout := VNum (utxoVout (doc_order d)) in
    let l1 := (log w ++ [EFindOne hash])%list in
    let l2 := (l1 ++ [EGetTxOut txid vout])%list in
    let l3 := (l2 ++ [ECheckForSufficientFunds wif])%list in
    let l4 := (l3 ++ [EGetBalance])%list in
    VStr "zdpu1" = VStr hash /\ hash <> "" /\
    orders w !! hash = Some d /\
    already_taken (doc_order d) = false /\
    getTxOut A l1 txid vout = Ok utxoStatus /\
    utxoStatus <> VNull /\
    checkForSufficientFunds A l2 wif = Ok v /\
    truthy v = true /\
    contains (buyOrSell (doc_order d)) "sell" /\
    getBalance A l3 = Ok balance /\
    short_of_funds (doc_order d) balance = false /\
    (within_safe_integers (doc_order d) -> safe_integer balance ->
     numTokens (doc_order d) * rateInSats (doc_order d) + 5000 <= balance) /\
    generatePartialTx A l4 d = Ok (VStr "0200abcd") /\
    snd (takeOrder A (VStr "zdpu1") w)
    = mkWorld (heap w) (orders w) (l4 ++ [EGeneratePartialTx d]).
Proof.
  apply (takeOrder_Ok_inv
           (Scenario.fixed Scenario.utxo_info (VBool true) 10000 None)
           (VStr "zdpu1") (VStr "0200abcd")
           (Scenario.holding "sell" (Some "posted"))).
  vm_compute. reflexivity.
Defined.

(** X6.  Every stored order that is not marked as taken (status absent,
    empty or 'posted') gets its UTXO checked: right after the lookup
    [takeOrder] queries the oracle for the order's own [utxoTxid] and
    [utxoVout]. *)
Theorem takeOrder_queries_oracle (adapters : Adapters) (w : World) (d : Doc) :
  let hash := p2wdbHash (doc_order d) in
  let txid := VStr (utxoTxid (doc_order d)) in
  let vout := VNum (utxoVout (doc_order d)) in
  persisted w d ->
  orderStatus (doc_order d) = Some "posted"
  \/ orderStatus (doc_order d) = Some ""
  \/ orderStatus (doc_order d) = None ->
  exists evs,
    log (snd (takeOrder adapters (VStr hash) w))
    = (log w ++ [EFindOne hash; EGetTxOut txid vout] ++ evs)%list.
Proof.
  intros hash txid vout Hp Hs. subst hash txid vout.
  rewrite (takeOrder_guard_passes adapters d w Hp Hs). cbv zeta.
  destruct (getTxOut adapters _ _ _) as [u|e];
    [|exists []; now rewrite app_nil_r].
  destruct (is_null u); [exists []; now rewrite app_nil_r|].
  match goal with |- context [bind ?m ?f ?w0] =>
    assert (confined is_lookup_or_network (bind m f)) as Hc
        by (apply confined_bind;
            [apply confined_ensureFunds
            |intros _; apply confined_call; reflexivity]);
    destruct (Hc w0) as (_ & _ & evs & -> & _)
  end.
  exists evs. cbn [log]. now rewrite <- app_assoc.
Qed.

(** An order stored without a status is checked against the oracle. *)
Lemma takeOrder_queries_oracle_witness :
  let A := Scenario.fixed VNull (VBool true) 10000 None in
  let w := Scenario.holding "sell" None in
  let d := Scenario.doc "sell" None in
  exists evs,
    log (snd (takeOrder A (VStr (p2wdbHash (doc_order d))) w))
    = (log w ++ [EFindOne (p2wdbHash (doc_order d));
                 EGetTxOut (VStr (utxoTxid (doc_order d)))
                           (VNum (utxoVout (doc_order d)))] ++ evs)%list.
Proof.
  intros A w d.
  apply (takeOrder_queries_oracle A w d).
  - split; [discriminate | reflexivity].
  - right. right. reflexivity.
Defined.

(** ** takeOrder can be repeated *)

Lemma ensureFunds_fst_independent (adapters : Adapters) (d : Doc)
      (w1 w2 : World) :
  history_independent adapters ->
  fst (ensureFunds adapters d w1) = fst (ensureFunds adapters d w2).
Proof.
  intros (_ & Hcan & Hbal & _). rewrite !ensureFunds_eq. cbv zeta.
  rewrite (Hcan (log w1) (log w2)).
  destruct (checkForSufficientFunds adapters _ _) as [v|e]; [|reflexivity].
  destruct (truthy v); [|reflexivity].
  destruct (includes _ _); [|reflexivity].
  cbn [fst]. now rewrite (Hbal _ (log w2 ++ [ECheckForSufficientFunds
                                              (privateKey adapters)])%list).
Qed.

Lemma takeOrder_fst_independent (adapters : Adapters) (orderCid : jsval)
      (w1 w2 : World) :
  history_independent adapters ->
  orders w1 = orders w2 ->
  fst (takeOrder adapters orderCid w1) = fst (takeOrder adapters orderCid w2).
Proof.
  intros HI Ho. pose proof HI as (Hutxo & _ & _ & Hgen).
  rewrite !takeOrder_eq, !findOrderByHash_eq.
  destruct orderCid as [| | | |hash|]; try reflexivity.
  destruct (String.eqb hash ""); [reflexivity|].
  rewrite Ho. destruct (orders w2 !! hash) as [d|]; [|reflexivity].
  cbv zeta. cbn [log heap orders].
  destruct (already_taken (doc_order d)); [reflexivity|].
  rewrite (Hutxo (log w1 ++ [EFindOne hash])%list
                 (log w2 ++ [EFindOne hash])%list).
  destruct (getTxOut adapters _ _ _) as [u|e]; [|reflexivity].
  destruct (is_null u); [reflexivity|].
  match goal with
  | |- fst (match ensureFunds _ _ ?a with _ => _ end)
       = fst (match ensureFunds _ _ ?b with _ => _ end) =>
      pose proof (ensureFunds_fst_independent adapters d a b HI) as He;
      destruct (ensureFunds adapters d a) as [[b1|e1] a'];
      destruct (ensureFunds adapters d b) as [[b2|e2] b'];
      cbn [fst] in *; try congruence
  end.
  unfold wallet_generatePartialTx, call. cbn [fst]. apply Hgen.
Qed.

(** X7.  [takeOrder] leaves no trace in the store, so nothing stops a second
    take: with collaborators whose answers do not change, calling [takeOrder]
    again on the same argument right after the first call gives the same
    outcome, in particular a second partial transaction for the same
    order. *)
Theorem takeOrder_repeatable (adapters : Adapters) (orderCid : jsval)
        (w : World) :
  history_independent adapters ->
  fst (takeOrder adapters orderCid (snd (takeOrder adapters orderCid w)))
  = fst (takeOrder adapters orderCid w).
Proof.
  intros HI. apply takeOrder_fst_independent; [exact HI|].
  now destruct (confined_takeOrder adapters orderCid w) as (_ & Ho & _).
Qed.

(** The order of the scenario, taken twice. *)
Lemma takeOrder_repeatable_witness :
  let A := Scenario.fixed Scenario.utxo_info (VBool true) 10000 None in
  let w := Scenario.holding "sell" (Some "posted") in
  history_independent A /\
  fst (takeOrder A (VStr "zdpu1") w) = Ok (VStr "0200abcd") /\
  fst (takeOrder A (VStr "zdpu1") (snd (takeOrder A (VStr "zdpu1") w)))
  = fst (takeOrder A (VStr "zdpu1") w).
Proof.
  intros A w.
  assert (history_independent A) as HI by (repeat split).
  split; [exact HI|]. split; [vm_compute; reflexivity|].
  exact (takeOrder_repeatable A (VStr "zdpu1") w HI).
Defined.

(** ** ensureFunds *)

(** X8.  "Will return true if it does": whenever [ensureFunds] returns, it
    returns [true], the P2WDB check passed, the order's side contains 'sell'
    and the solvency test [short_of_funds] did not fire on the balance read:
    within the safe integers, that balance is at least
    [numTokens * rateInSats + 5000]. *)
Theorem ensureFunds_Ok_inv (adapters : Adapters) (d : Doc) (w w' : World)
        (b : bool) :
  ensureFunds adapters d w = (Ok b, w') ->
  let wif := privateKey adapters in
  b = true /\
  contains (buyOrSell (doc_order d)) "sell" /\
  exists v balance,
    checkForSufficientFunds adapters (log w) wif = Ok v /\
    truthy v = true /\
    getBalance adapters (log w ++ [ECheckForSufficientFunds wif])
    = Ok balance /\
    short_of_funds (doc_order d) balance = false /\
    (within_safe_integers (doc_order d) -> safe_integer balance ->
     numTokens (doc_order d) * rateInSats (doc_order d) + 5000 <= balance).
Proof.
  rewrite ensureFunds_eq. cbv zeta.
  destruct (checkForSufficientFunds adapters _ _) as [v|e] eqn:Hcan;
    [|discriminate].
  destruct (truthy v) eqn:Hv; [|discriminate].
  destruct (includes _ _) eqn:Hsell; [|discriminate].
  destruct (getBalance adapters _) as [balance|e] eqn:Hbal; [|discriminate].
  destruct (short_of_funds (doc_order d) balance) eqn:Hshort; [discriminate|].
  intros [= <- _]. split; [reflexivity|].
  split; [now apply includes_contains|].
  exists v, balance. repeat split; auto.
  intros Hsafe Hsafeb.
  rewrite (short_of_funds_exact _ _ Hsafe Hsafeb) in Hshort.
  now apply Z.ltb_ge in Hshort.
Qed.

(** The scenario: the wallet covers the order. *)
Lemma ensureFunds_Ok_inv_witness :
  let A := Scenario.fixed Scenario.utxo_info (VBool true) 10000 None in
  let w := Scenario.holding "sell" (Some "posted") in
  let d := Scenario.doc "sell" (Some "posted") in
  true = true /\
  contains (buyOrSell (doc_order d)) "sell" /\
  exists v balance,
    checkForSufficientFunds A (log w) (privateKey A) = Ok v /\
    truthy v = true /\
    getBalance A (log w ++ [ECheckForSufficientFunds (privateKey A)])
    = Ok balance /\
    short_of_funds (doc_order d) balance = false /\
    (within_safe_integers (doc_order d) -> safe_integer balance ->
     numTokens (doc_order d) * rateInSats (doc_order d) + 5000 <= balance).
Proof.
  intros A w d.
  apply (ensureFunds_Ok_inv A d w (snd (ensureFunds A d w)) true).
  vm_compute. reflexivity.
Defined.

(** X9.  "Will throw an error if it doesn't": [ensureFunds] fails for one of
    five reasons only, tried in this order: the P2WDB client rejects (its
    error is passed on), the P2WDB check is falsy, the side does not contain
    'sell', the wallet rejects the balance read (its error is passed on), or
    the solvency test [short_of_funds] fires on the balance read: within the
    safe integers, that balance is below [numTokens * rateInSats + 5000]. *)
Theorem ensureFunds_Throw_inv (adapters : Adapters) (d : Doc) (w w' : World)
        (e : exn) :
  ensureFunds adapters d w = (Throw e, w') ->
  let wif := privateKey adapters in
  let l1 := (log w ++ [ECheckForSufficientFunds wif])%list in
  let needed := numTokens (doc_order d) * rateInSats (doc_order d) in
  checkForSufficientFunds adapters (log w) wif = Throw e
  \/ (exists v,
        checkForSufficientFunds adapters (log w) wif = Ok v /\
        ((truthy v = false /\
          e = Error "App wallet does not have funds for writing to the P2WDB.")
         \/ (truthy v = true /\
             ~ contains (buyOrSell (doc_order d)) "sell" /\
             e = Error "Buy orders are not supported yet.")
         \/ (truthy v = true /\
             contains (buyOrSell (doc_order d)) "sell" /\
             getBalance adapters l1 = Throw e)
         \/ (truthy v = true /\
             contains (buyOrSell (doc_order d)) "sell" /\
             exists balance,
               getBalance adapters l1 = Ok balance /\
               short_of_funds (doc_order d) balance = true /\
               (within_safe_integers (doc_order d) -> safe_integer balance ->
                balance < needed + 5000) /\
               e = Error "App wallet does not control enough BCH to purchase the tokens."))).
Proof.
  rewrite ensureFunds_eq. cbv zeta.
  destruct (checkForSufficientFunds adapters _ _) as [v|e0] eqn:Hcan.
  2:{ intros [= <- _]. now left. }
  intros H. right. exists v. split; [reflexivity|].
  destruct (truthy v) eqn:Hv.
  2:{ injection H as <- _. left. auto. }
  destruct (includes _ _) eqn:Hsell.
  2:{ injection H as <- _. right. left.
      apply includes_not_contains in Hsell. auto. }
  apply includes_contains in Hsell.
  destruct (getBalance adapters _) as [balance|e0] eqn:Hbal.
  2:{ injection H as <- _. right. right. left. auto. }
  destruct (short_of_funds (doc_order d) balance) eqn:Hshort; [|discriminate].
  injection H as <- _. right. right. right.
  repeat split; auto. exists balance. repeat split; auto.
  intros Hsafe Hsafeb.
  rewrite (short_of_funds_exact _ _ Hsafe Hsafeb) in Hshort.
  now apply Z.ltb_lt in Hshort.
Qed.

(** The scenario with a balance of 4000. *)
Lemma ensureFunds_Throw_inv_witness :
  let A := Scenario.fixed Scenario.utxo_info (VBool true) 4000 None in
  let w := Scenario.holding "sell" (Some "posted") in
  let d := Scenario.doc "sell" (Some "posted") in
  let e := Error "App wallet does not control enough BCH to purchase the tokens." in
  let wif := privateKey A in
  let l1 := (log w ++ [ECheckForSufficientFunds wif])%list in
  let needed := numTokens (doc_order d) * rateInSats (doc_order d) in
  checkForSufficientFunds A (log w) wif = Throw e
  \/ (exists v,
        checkForSufficientFunds A (log w) wif = Ok v /\
        ((truthy v = false /\
          e = Error "App wallet does not have funds for writing to the P2WDB.")
         \/ (truthy v = true /\
             ~ contains (buyOrSell (doc_order d)) "sell" /\
             e = Error "Buy orders are not supported yet.")
         \/ (truthy v = true /\
             contains (buyOrSell (doc_order d)) "sell" /\
             getBalance A l1 = Throw e)
         \/ (truthy v = true /\
             contains (buyOrSell (doc_order d)) "sell" /\
             exists balance,
               getBalance A l1 = Ok balance /\
               short_of_funds (doc_order d) balance = true /\
               (within_safe_integers (doc_order d) -> safe_integer balance ->
                balance < needed + 5000) /\
               e = Error "App wallet does not control enough BCH to purchase the tokens."))).
Proof.
  intros A w d e.
  apply (ensureFunds_Throw_inv A d w (snd (ensureFunds A d w)) e).
  vm_compute. reflexivity.
Defined.

(** X10.  [ensureFunds] only asks: heap and store are left as they are, and
    the calls it makes are the P2WDB check, followed or not by one read of
    the balance; the balance is read only when the check passed and the side
    contains 'sell'. *)
Theorem ensureFunds_calls (adapters : Adapters) (d : Doc) (w : World) :
  let wif := privateKey adapters in
  let w' := snd (ensureFunds adapters d w) in
  heap w' = heap w /\
  orders w' = orders w /\
  (log w' = (log w ++ [ECheckForSufficientFunds wif])%list
   \/ (log w' = (log w ++ [ECheckForSufficientFunds wif; EGetBalance])%list /\
       contains (buyOrSell (doc_order d)) "sell" /\
       exists v, checkForSufficientFunds adapters (log w) wif = Ok v /\
                 truthy v = true)).
Proof.
  cbv zeta. rewrite ensureFunds_eq. cbv zeta.
  destruct (checkForSufficientFunds adapters _ _) as [v|e] eqn:Hcan;
    [|repeat split; now left].
  destruct (truthy v) eqn:Hv; [|repeat split; now left].
  destruct (includes _ _) eqn:Hsell; [|repeat split; now left].
  repeat split. right. split; [reflexivity|].
  split; [now apply includes_contains|]. exists v. auto.
Qed.

(** ** createOrder *)

Section CreateOutcomes.

Variable adapters : Adapters.

(** [createOrder] on any argument, outcome by outcome. *)
Lemma createOrder_eq (orderObj : jsval) (w : World) :
  createOrder adapters orderObj w
  = match read_prop (heap w) orderObj "data" with
    | Throw e => (Throw e, w)
    | Ok data =>
        match read_prop (heap w) data "utxoTxid" with
        | Throw e => (Throw e, w)
        | Ok txid =>
            match read_prop (heap w) data "utxoVout" with
            | Throw e => (Throw e, w)
            | Ok vout =>
                let l1 := (log w ++ [EGetTxOut txid vout])%list in
                let w1 := mkWorld (heap w) (orders w) l1 in
                match getTxOut adapters (log w) txid vout with
                | Throw e => (Throw e, w1)
                | Ok utxoStatus =>
                    if is_null utxoStatus then (Ok false, w1)
                    else
                      match data with
                      | VRef ld =>
                          let h' := mark_posted (heap w) ld in
                          match validate h' orderObj with
                          | Throw e => (Throw e, mkWorld h' (orders w) l1)
                          | Ok entity =>
                              (match storage_fault adapters l1 entity with
                               | Some err => Throw err
                               | None => Ok true
                               end,
                               mkWorld h'
                                 (match storage_fault adapters l1 entity with
                                  | Some _ => orders w
                                  | None =>
                                      <[p2wdbHash entity :=
                                          mkDoc (object_id adapters l1)
                                                entity]> (orders w)
                                  end)
                                 (l1 ++ [ESave entity]))
                          end
                      | VUndef | VNull =>
                          (Throw (TypeError "Cannot set properties of undefined"),
                           w1)
                      | _ => (Throw (TypeError "Cannot create property"), w1)
                      end
                end
            end
        end
    end.
Proof.
  destruct (read_prop (heap w) orderObj "data") as [data|e] eqn:Hdata.
  2:{ unfold createOrder. rewrite try_catch_rethrow. unfold bind, get.
      now rewrite Hdata. }
  destruct (read_prop (heap w) data "utxoTxid") as [txid|e] eqn:Htxid.
  2:{ unfold createOrder. rewrite try_catch_rethrow. unfold bind, get.
      now rewrite Hdata, Htxid. }
  destruct (read_prop (heap w) data "utxoVout") as [vout|e] eqn:Hvout.
  2:{ unfold createOrder. rewrite try_catch_rethrow. unfold bind, get.
      now rewrite Hdata, Htxid, Hvout. }
  destruct data as [| |b|z|s|ld].
  6:{ rewrite (createOrder_steps adapters _ _ _ _ _ Hdata Htxid Hvout).
      cbv zeta.
      destruct (getTxOut adapters (log w) txid vout) as [u|e]; [|reflexivity].
      destruct (is_null u); [reflexivity|].
      destruct (validate _ orderObj) as [entity|e]; [|reflexivity].
      rewrite <- app_assoc. cbn [app].
      now destruct (storage_fault adapters _ entity). }
  all: try discriminate Htxid.
  all: unfold createOrder; rewrite try_catch_rethrow;
    unfold bind, get, bchjs_getTxOut, call;
    rewrite Hdata, Htxid, Hvout; cbv zeta;
    destruct (getTxOut adapters (log w) txid vout) as [u|e]; [|reflexivity];
    destruct (is_null u); [reflexivity|];
    cbn [heap]; now rewrite Hdata.
Qed.

End CreateOutcomes.

(** X11.  A payload without [data] never reaches the oracle: when the
    argument is [undefined] or [null], or its [data] is, [createOrder] raises
    a [TypeError] and the world is as before (no call, nothing persisted,
    payload untouched). *)
Theorem createOrder_malformed_payload (adapters : Adapters)
        (orderObj : jsval) (w : World) :
  orderObj = VUndef \/ orderObj = VNull
  \/ read_prop (heap w) orderObj "data" = Ok VUndef
  \/ read_prop (heap w) orderObj "data" = Ok VNull ->
  exists m, createOrder adapters orderObj w = (Throw (TypeError m), w).
Proof.
  rewrite createOrder_eq.
  intros [-> | [-> | [-> | ->]]]; eexists; reflexivity.
Qed.

(** An empty object for a payload. *)
Lemma createOrder_malformed_payload_witness :
  let A := Scenario.fixed Scenario.utxo_info (VBool true) 10000 None in
  let w := mkWorld {[ 1%positive := ∅ ]} ∅ [] in
  exists m, createOrder A (VRef 1%positive) w = (Throw (TypeError m), w).
Proof.
  intros A w.
  apply (createOrder_malformed_payload A (VRef 1%positive) w).
  right. right. left. reflexivity.
Defined.

(** X12.  A rejection by the oracle is passed on as it is: [createOrder]
    fails with the oracle's error, persists nothing and leaves the payload
    untouched. *)
Theorem createOrder_oracle_rejects (adapters : Adapters) (w : World)
        (orderObj data txid vout : jsval) (e : exn) :
  read_prop (heap w) orderObj "data" = Ok data ->
  read_prop (heap w) data "utxoTxid" = Ok txid ->
  read_prop (heap w) data "utxoVout" = Ok vout ->
  getTxOut adapters (log w) txid vout = Throw e ->
  createOrder adapters orderObj w
  = (Throw e, mkWorld (heap w) (orders w) (log w ++ [EGetTxOut txid vout])).
Proof.
  intros Hdata Htxid Hvout Hu.
  now rewrite createOrder_eq, Hdata, Htxid, Hvout, Hu.
Qed.

(** The scenario with an oracle that is down. *)
Lemma createOrder_oracle_rejects_witness :
  let A := mkAdapters (fun _ _ _ => Throw (Error "Network Error"))
             (VStr "L1wif") (fun _ _ => Ok (VBool true)) (fun _ => Ok 10000)
             VUndef (fun _ _ => Ok (VStr "0200abcd")) (fun _ _ => None)
             (fun _ => "6541") in
  createOrder A Scenario.payload Scenario.fresh
  = (Throw (Error "Network Error"),
     mkWorld (heap Scenario.fresh) (orders Scenario.fresh)
             (log Scenario.fresh ++ [EGetTxOut (VStr "abc") (VNum 0)])).
Proof.
  intros A.
  apply (createOrder_oracle_rejects A Scenario.fresh Scenario.payload
           (VRef 2%positive) (VStr "abc") (VNum 0));
    reflexivity.
Defined.

(** X13.  A payload the validator refuses is not saved: with a live UTXO and
    a failing validation, [createOrder] fails with the validator's error
    without calling [save]; the store is as before, while the payload
    already carries the status 'posted'. *)
Theorem createOrder_invalid_payload (adapters : Adapters) (w : World)
        (orderObj txid vout utxoStatus : jsval) (ld : loc) (e : exn) :
  read_prop (heap w) orderObj "data" = Ok (VRef ld) ->
  read_prop (heap w) (VRef ld) "utxoTxid" = Ok txid ->
  read_prop (heap w) (VRef ld) "utxoVout" = Ok vout ->
  getTxOut adapters (log w) txid vout = Ok utxoStatus ->
  utxoStatus <> VNull ->
  validate (mark_posted (heap w) ld) orderObj = Throw e ->
  createOrder adapters orderObj w
  = (Throw e,
     mkWorld (mark_posted (heap w) ld) (orders w)
             (log w ++ [EGetTxOut txid vout])).
Proof.
  intros Hdata Htxid Hvout Hu Hnn Hval.
  rewrite createOrder_eq, Hdata, Htxid, Hvout, Hu. cbv zeta.
  replace (is_null utxoStatus) with false by now destruct utxoStatus.
  now rewrite Hval.
Qed.

(** A payload with a live UTXO and nothing else. *)
Lemma createOrder_invalid_payload_witness :
  let A := Scenario.fixed Scenario.utxo_info (VBool true) 10000 None in
  let data : obj := <["utxoTxid" := VStr "abc"]> (<["utxoVout" := VNum 0]> ∅) in
  let h : gmap loc obj :=
    <[1%positive := <["data" := VRef 2%positive]> ∅]>
      (<[2%positive := data]> ∅) in
  let w := mkWorld h ∅ [] in
  createOrder A (VRef 1%positive) w
  = (Throw (Error "ValidationError"),
     mkWorld (mark_posted (heap w) 2%positive) (orders w)
             (log w ++ [EGetTxOut (VStr "abc") (VNum 0)])).
Proof.
  intros A data h w.
  apply (createOrder_invalid_payload A w (VRef 1%positive) (VStr "abc")
           (VNum 0) Scenario.utxo_info 2%positive);
    try discriminate; vm_compute; reflexivity.
Defined.

(** X14.  What [createOrder] calls and writes, on every argument and for
    every behaviour of the collaborators: at most one oracle query, followed
    or not by one [save]; never the wallet, the P2WDB client or a lookup.
    Unless it returns [true] the store is as before, and when it returns
    [false] the payload is untouched too. *)
Theorem createOrder_calls (adapters : Adapters) (orderObj : jsval)
        (w : World) :
  let r := createOrder adapters orderObj w in
  (exists evs,
      log (snd r) = (log w ++ evs)%list /\
      (evs = []
       \/ (exists txid vout, evs = [EGetTxOut txid vout])
       \/ (exists txid vout entity,
              evs = [EGetTxOut txid vout; ESave entity]))) /\
  (fst r <> Ok true -> orders (snd r) = orders w) /\
  (fst r = Ok false -> heap (snd r) = heap w).
Proof.
  cbv zeta. rewrite createOrder_eq.
  assert (forall (x : Res bool) h o,
             exists evs, log (snd (x, mkWorld h o (log w))) = (log w ++ evs)%list /\
               (evs = []
                \/ (exists txid vout, evs = [EGetTxOut txid vout])
                \/ (exists txid vout entity,
                       evs = [EGetTxOut txid vout; ESave entity]))) as Hnone.
  { intros x h o. exists []. cbn. rewrite app_nil_r.
    split; [reflexivity | now left]. }
  assert (forall (x : Res bool) h o txid vout,
             exists evs,
               log (snd (x, mkWorld h o (log w ++ [EGetTxOut txid vout])))
               = (log w ++ evs)%list /\
               (evs = []
                \/ (exists txid vout, evs = [EGetTxOut txid vout])
                \/ (exists txid vout entity,
                       evs = [EGetTxOut txid vout; ESave entity]))) as Hone.
  { intros x h o txid vout. exists [EGetTxOut txid vout]. cbn.
    split; [reflexivity | right; left; eauto]. }
  destruct w as [h o l]. cbn [heap orders log] in *.
  destruct (read_prop h orderObj "data") as [data|e];
    [|split; [apply Hnone | split; [reflexivity | discriminate]]].
  destruct (read_prop h data "utxoTxid") as [txid|e];
    [|split; [apply Hnone | split; [reflexivity | discriminate]]].
  destruct (read_prop h data "utxoVout") as [vout|e];
    [|split; [apply Hnone | split; [reflexivity | discriminate]]].
  cbv zeta.
  destruct (getTxOut adapters l txid vout) as [u|e];
    [|split; [apply Hone | split; [reflexivity | discriminate]]].
  destruct (is_null u);
    [split; [apply Hone | split; reflexivity]|].
  destruct data as [| |b|z|s|ld];
    try (split; [apply Hone | split; [reflexivity | discriminate]]).
  destruct (validate _ orderObj) as [entity|e];
    [|split; [apply Hone | split; [reflexivity | discriminate]]].
  split.
  - exists [EGetTxOut txid vout; ESave entity]. cbn [snd log].
    rewrite <- app_assoc. cbn [app]. split; [reflexivity|].
    right. right. eauto.
  - destruct (storage_fault adapters _ entity); cbn [fst snd orders];
      split; congruence.
Qed.

(** X15.  A payload whose [data] is a string, a number or a boolean: its
    [utxoTxid] and [utxoVout] read as [undefined], so the oracle is asked
    about [(undefined, undefined)]; if it answers anything but [null], the
    assignment of the status to a primitive raises a [TypeError] (class
    bodies are strict code).  In no case is anything saved. *)
Theorem createOrder_primitive_data (adapters : Adapters) (w : World)
        (orderObj data : jsval) :
  let r := createOrder adapters orderObj w in
  read_prop (heap w) orderObj "data" = Ok data ->
  (exists b, data = VBool b) \/ (exists z, data = VNum z)
  \/ (exists s, data = VStr s) ->
  snd r = mkWorld (heap w) (orders w)
                  (log w ++ [EGetTxOut VUndef VUndef]) /\
  fst r <> Ok true /\
  (forall utxoStatus,
      getTxOut adapters (log w) VUndef VUndef = Ok utxoStatus ->
      utxoStatus <> VNull ->
      exists m, fst r = Throw (TypeError m)).
Proof.
  intros r Hdata Hprim. subst r. rewrite createOrder_eq, Hdata.
  assert (read_prop (heap w) data "utxoTxid" = Ok VUndef
          /\ read_prop (heap w) data "utxoVout" = Ok VUndef) as [-> ->]
    by (destruct Hprim as [[b ->] | [[z ->] | [s ->]]]; now split).
  cbv zeta.
  destruct (getTxOut adapters (log w) VUndef VUndef) as [u|e].
  - destruct (is_null u) eqn:Hnull.
    + repeat split; [discriminate|].
      intros u' [= <-] Hnn. now destruct u.
    + destruct Hprim as [[b ->] | [[z ->] | [s ->]]];
        (repeat split; [discriminate | intros; eexists; reflexivity]).
  - repeat split; [discriminate | discriminate].
Qed.

(** A payload [{ data: 'abc' }]. *)
Lemma createOrder_primitive_data_witness :
  let A := Scenario.fixed Scenario.utxo_info (VBool true) 10000 None in
  let w := mkWorld {[ 1%positive := {[ "data" := VStr "abc" ]} ]} ∅ [] in
  let r := createOrder A (VRef 1%positive) w in
  snd r = mkWorld (heap w) (orders w)
                  (log w ++ [EGetTxOut VUndef VUndef]) /\
  fst r <> Ok true /\
  (forall utxoStatus,
      getTxOut A (log w) VUndef VUndef = Ok utxoStatus ->
      utxoStatus <> VNull ->
      exists m, fst r = Throw (TypeError m)).
Proof.
  intros A w.
  apply (createOrder_primitive_data A w (VRef 1%positive) (VStr "abc"));
    [reflexivity | right; right; exists "abc"; reflexivity].
Defined.

(** ** listOrders *)

(** X16.  An order that [createOrder] has persisted is listed: after a
    successful [createOrder], [listOrders] returns a list that holds a record
    of the saved order, makes one call ([find]) and leaves store and heap as
    they are. *)
Theorem createOrder_then_listOrders (adapters : Adapters) (w w' : World)
        (orderObj : jsval) :
  createOrder adapters orderObj w = (Ok true, w') ->
  exists saved found l,
    last (log w') = Some (ESave saved) /\
    listOrders w'
    = (Ok l, mkWorld (heap w') (orders w') (log w' ++ [EFind])) /\
    found ∈ l /\
    doc_order found = saved.
Proof.
  intros H.
  destruct (createOrder_true_inv adapters _ _ _ H)
    as (ld & txid & vout & saved & _ & _ & ->).
  set (found := mkDoc (object_id adapters (log w ++ [EGetTxOut txid vout]))
                      saved).
  exists saved, found. eexists. split; [|split; [|split]].
  - cbn [log].
    change [EGetTxOut txid vout; ESave saved]
      with ([EGetTxOut txid vout] ++ [ESave saved])%list.
    now rewrite app_assoc, last_snoc.
  - unfold listOrders. rewrite try_catch_rethrow. reflexivity.
  - cbn [orders]. apply list_elem_of_fmap.
    exists (p2wdbHash saved, found). split; [reflexivity|].
    apply elem_of_map_to_list. apply lookup_insert_eq.
  - reflexivity.
Qed.

(** The payload of the scenario, created and then listed. *)
Lemma createOrder_then_listOrders_witness :
  let A := Scenario.fixed Scenario.utxo_info (VBool true) 10000 None in
  let w' := snd (createOrder A Scenario.payload Scenario.fresh) in
  exists saved found l,
    last (log w') = Some (ESave saved) /\
    listOrders w'
    = (Ok l, mkWorld (heap w') (orders w') (log w' ++ [EFind])) /\
    found ∈ l /\
    doc_order found = saved.
Proof.
  intros A w'.
  apply (createOrder_then_listOrders A Scenario.fresh w' Scenario.payload).
  vm_compute. reflexivity.
Defined.

(** ** The constructor *)

Lemma new_OrderUseCases_eq (new_OrderEntity : Res jsval)
      (localConfig : jsval) (w : World) :
  new_OrderUseCases new_OrderEntity localConfig w
  = match match localConfig with
          | VUndef => Ok VUndef
          | _ => read_prop (heap w) localConfig "adapters"
          end with
    | Throw e => (Throw e, w)
    | Ok adapters =>
        if truthy adapters
        then
          match new_OrderEntity with
          | Throw e => (Throw e, w)
          | Ok orderEntity =>
              match read_prop (heap w) adapters "localdb" with
              | Throw e => (Throw e, w)
              | Ok localdb =>
                  match read_prop (heap w) localdb "Order" with
                  | Throw e => (Throw e, w)
                  | Ok OrderModel =>
                      (Ok (mkInstance adapters orderEntity OrderModel), w)
                  end
              end
          end
        else
          (Throw (Error "Instance of adapters must be passed in when instantiating Order Use Cases library."),
           w)
    end.
Proof.
  unfold new_OrderUseCases, bind.
  assert ((match localConfig with
           | VUndef => ret VUndef
           | _ => get localConfig "adapters"
           end) w
          = (match localConfig with
             | VUndef => Ok VUndef
             | _ => read_prop (heap w) localConfig "adapters"
             end, w)) as -> by now destruct localConfig.
  destruct (match localConfig with
            | VUndef => Ok VUndef
            | _ => read_prop (heap w) localConfig "adapters"
            end) as [a|e]; [|reflexivity].
  destruct (truthy a); cbn [negb]; [|reflexivity].
  unfold lift, get, ret.
  destruct new_OrderEntity as [oe|e]; [|reflexivity].
  destruct (read_prop (heap w) a "localdb") as [ldb|e]; [|reflexivity].
  now destruct (read_prop (heap w) ldb "Order").
Qed.

(** X17.  Every instance has its adapters: when the constructor returns, the
    argument was not [undefined], [this.adapters] is the truthy value found
    under [localConfig.adapters] (the caller's own object, not a copy),
    [this.OrderModel] is what [adapters.localdb.Order] reads, and nothing was
    changed or called. *)
Theorem new_OrderUseCases_Ok_inv (new_OrderEntity : Res jsval)
        (localConfig : jsval) (w w' : World) (i : Instance) :
  new_OrderUseCases new_OrderEntity localConfig w = (Ok i, w') ->
  w' = w /\
  localConfig <> VUndef /\
  read_prop (heap w) localConfig "adapters" = Ok (this_adapters i) /\
  truthy (this_adapters i) = true /\
  new_OrderEntity = Ok (this_orderEntity i) /\
  exists localdb,
    read_prop (heap w) (this_adapters i) "localdb" = Ok localdb /\
    read_prop (heap w) localdb "Order" = Ok (this_OrderModel i).
Proof.
  rewrite new_OrderUseCases_eq.
  destruct (decide (localConfig = VUndef)) as [->|Hlc]; [discriminate|].
  assert (match localConfig with
          | VUndef => Ok VUndef
          | _ => read_prop (heap w) localConfig "adapters"
          end = read_prop (heap w) localConfig "adapters") as ->
      by now destruct localConfig.
  destruct (read_prop (heap w) localConfig "adapters") as [a|e];
    [|discriminate].
  destruct (truthy a) eqn:Ht; [|discriminate].
  destruct new_OrderEntity as [oe|e]; [|discriminate].
  destruct (read_prop (heap w) a "localdb") as [ldb|e] eqn:Hldb;
    [|discriminate].
  destruct (read_prop (heap w) ldb "Order") as [om|e] eqn:Hom;
    [|discriminate].
  intros [= <- <-]. cbn. repeat split; auto. exists ldb. auto.
Qed.

(** An adapters object with its [localdb.Order]. *)
Lemma new_OrderUseCases_Ok_inv_witness :
  let h : gmap loc obj :=
    <[1%positive := {[ "adapters" := VRef 2%positive ]}]>
      (<[2%positive := {[ "localdb" := VRef 3%positive ]}]>
         (<[3%positive := {[ "Order" := VRef 4%positive ]}]> ∅)) in
  let w := mkWorld h ∅ [] in
  let i := mkInstance (VRef 2%positive) (VRef 5%positive) (VRef 4%positive) in
  w = w /\
  VRef 1%positive <> VUndef /\
  read_prop (heap w) (VRef 1%positive) "adapters" = Ok (this_adapters i) /\
  truthy (this_adapters i) = true /\
  Ok (VRef 5%positive) = Ok (this_orderEntity i) /\
  exists localdb,
    read_prop (heap w) (this_adapters i) "localdb" = Ok localdb /\
    read_prop (heap w) localdb "Order" = Ok (this_OrderModel i).
Proof.
  intros h w i.
  apply (new_OrderUseCases_Ok_inv (Ok (VRef 5%positive)) (VRef 1%positive)
           w w i).
  vm_compute. reflexivity.
Defined.

(** X18.  The constructor without adapters.  Called with no argument
    ([undefined]: the default [{}] applies) or with a configuration whose
    [adapters] is missing or falsy, it raises the error 'Instance of adapters
    must be passed in when instantiating Order Use Cases library.'; called
    with [null], to which the default does not apply, it raises a
    [TypeError] instead.  In both cases nothing else happens. *)
Theorem new_OrderUseCases_without_adapters (new_OrderEntity : Res jsval)
        (localConfig : jsval) (w : World) :
  (localConfig = VUndef
   \/ (exists a, read_prop (heap w) localConfig "adapters" = Ok a
                 /\ truthy a = false) ->
   new_OrderUseCases new_OrderEntity localConfig w
   = (Throw (Error "Instance of adapters must be passed in when instantiating Order Use Cases library."),
      w)) /\
  (localConfig = VNull ->
   exists m,
     new_OrderUseCases new_OrderEntity localConfig w
     = (Throw (TypeError m), w)).
Proof.
  rewrite new_OrderUseCases_eq. split.
  - intros [-> | (a & Ha & Ht)]; [reflexivity|].
    destruct localConfig; try discriminate Ha; now rewrite Ha, Ht.
  - intros ->. eexists. reflexivity.
Qed.

(** No argument, an empty configuration, and [null]. *)
Lemma new_OrderUseCases_without_adapters_witness :
  let w := mkWorld {[ 1%positive := ∅ ]} ∅ [] in
  let missing := Error "Instance of adapters must be passed in when instantiating Order Use Cases library." in
  new_OrderUseCases (Ok VUndef) VUndef w = (Throw missing, w) /\
  new_OrderUseCases (Ok VUndef) (VRef 1%positive) w = (Throw missing, w) /\
  exists m, new_OrderUseCases (Ok VUndef) VNull w = (Throw (TypeError m), w).
Proof.
  intros w missing. split; [|split].
  - apply (proj1 (new_OrderUseCases_without_adapters (Ok VUndef) VUndef w)).
    now left.
  - apply (proj1 (new_OrderUseCases_without_adapters (Ok VUndef)
                    (VRef 1%positive) w)).
    right. exists VUndef. split; reflexivity.
  - apply (proj2 (new_OrderUseCases_without_adapters (Ok VUndef) VNull w)).
    reflexivity.
Defined.
